(** * StaticHosting: the static-site hosting construct of [lib/static-hosting.ts]

    The construct's constructor runs once and declares child constructs in its
    own scope: buckets, an origin access identity, an optional user and group,
    a CloudFront distribution, an optional IAM policy, stack outputs and an
    optional Route53 alias record.  The embedding below follows the
    constructor statement by statement.  The scope is a finite map from
    construct ids to declared nodes, threaded through a small state-and-error
    monad.

    The SDK classes ([Bucket], [User], [CloudFrontWebDistribution], ...) are
    not part of this repository, and their constructors may throw: on an id
    already taken in the scope, and on properties they refuse (an illegal
    bucket name, an origin list without exactly one default behavior, a
    hosted-zone lookup on a stack without environment).  A declaration
    records the properties handed to the SDK constructor; whether the SDK
    accepts them is a parameter [sdk] of the build, and a refusal aborts the
    build at that declaration, as the exception does.  Every theorem holds for
    an arbitrary [sdk]; the checks of [cdk_checks] are used to evaluate the
    sample configurations. *)

From stdpp Require Import gmap strings list fin_maps.

(** ** Values that may carry deploy-time references *)

(** A string read from a declared construct ([bucket.bucketName],
    [distribution.distributionId]) is not known when the constructor runs; it
    is a reference to an attribute of the node.  A template literal that
    splices such a value is a sequence of fragments. *)
Inductive Frag : Type :=
| Lit (s : string)
| Attr (id : string) (attr : string).

Abbreviation Value := (list Frag).

Global Instance Frag_eq_dec : EqDecision Frag.
Proof. solve_decision. Defined.

(** ** Property shapes of the SDK, one module per imported package *)

Module core.
Inductive RemovalPolicy : Type := DESTROY | RETAIN | SNAPSHOT.

Record CfnOutputProps : Type := {
  description : string;
  value : Value
}.
End core.

Module s3.
Inductive BucketEncryption : Type := UNENCRYPTED | KMS_MANAGED | S3_MANAGED | KMS.
Inductive BlockPublicAccess : Type := BLOCK_ALL | BLOCK_ACLS.
Record BucketProps : Type := {
  bucketName : string;
  encryption : BucketEncryption;
  blockPublicAccess : BlockPublicAccess;
  removalPolicy : option core.RemovalPolicy
}.

(** The three grant methods the constructor calls on a bucket. *)
Inductive Access : Type := Read | Write | ReadWrite.

(** [bucket.grantX(grantee)]: both ends are construct ids of the scope. *)
Record Grant : Type := {
  grant_bucket : string;
  grant_access : Access;
  grantee : string
}.
End s3.

Module cloudfront.
Inductive SecurityPolicyProtocol : Type :=
  SSL_V3 | TLS_V1 | TLS_V1_2016 | TLS_V1_1_2016 | TLS_V1_2_2018.
Inductive SSLMethod : Type := SNI | VIP.
Inductive PriceClass : Type := PRICE_CLASS_100 | PRICE_CLASS_200 | PRICE_CLASS_ALL.
Inductive ViewerProtocolPolicy : Type := HTTPS_ONLY | REDIRECT_TO_HTTPS | ALLOW_ALL.

(** Every field of a behavior is optional in the SDK; the constructor itself
    only ever sets [isDefaultBehavior]. *)
Record Behavior : Type := {
  isDefaultBehavior : option bool;
  pathPattern : option string;
  compress : option bool
}.

Record S3OriginConfig : Type := {
  s3BucketSource : string;
  originAccessIdentity : option string
}.

Record CustomOriginConfig : Type := {
  domainName : string
}.

Record SourceConfiguration : Type := {
  s3OriginSource : option S3OriginConfig;
  customOriginSource : option CustomOriginConfig;
  behaviors : list Behavior
}.

Record AliasConfiguration : Type := {
  acmCertRef : string;
  names : list string;
  securityPolicy : SecurityPolicyProtocol;
  sslMethod : SSLMethod
}.

Record ErrorConfiguration : Type := {
  errorCode : Z;
  errorCachingMinTtl : Z;
  responseCode : Z;
  responsePagePath : string
}.

Record LoggingConfiguration : Type := {
  bucket : string
}.

Record CloudFrontWebDistributionProps : Type := {
  aliasConfiguration : AliasConfiguration;
  originConfigs : list SourceConfiguration;
  errorConfigurations : list ErrorConfiguration;
  priceClass : PriceClass;
  viewerProtocolPolicy : ViewerProtocolPolicy;
  loggingConfig : option LoggingConfiguration
}.
End cloudfront.

Module iam.
Inductive Effect : Type := ALLOW | DENY.

Record PolicyStatement : Type := {
  effect : Effect;
  actions : list string;
  resources : list Value
}.

(** [users] and [groups] are both optional in the SDK; an omitted list is
    [None]. *)
Record PolicyProps : Type := {
  users : option (list string);
  groups : option (list string);
  statements : list PolicyStatement
}.
End iam.

Module route53.
Record HostedZoneProviderProps : Type := {
  domainName : string
}.

(** [RecordTarget.fromAlias(new CloudFrontTarget(distribution))]; the target
    class comes from the companion package of alias targets. *)
Inductive RecordTarget : Type :=
| CloudFrontTarget (distribution : string).

Record ARecordProps : Type := {
  recordName : string;
  target : RecordTarget;
  zone : string
}.
End route53.

(** ** The construct scope *)

Inductive Node : Type :=
| NBucket (p : s3.BucketProps)
| NCfnOutput (p : core.CfnOutputProps)
| NOriginAccessIdentity (comment : string)
| NUser (userName : string)
| NGroup (members : list string)
| NDistribution (p : cloudfront.CloudFrontWebDistributionProps)
| NPolicy (p : iam.PolicyProps)
| NHostedZone (p : route53.HostedZoneProviderProps)
| NARecord (p : route53.ARecordProps).

Record Graph : Type := {
  children : gmap string Node;
  grants : list s3.Grant
}.

Definition empty_graph : Graph := {| children := ∅; grants := [] |}.

Inductive BuildError : Type :=
| DuplicateId (id : string)
| Rejected (id : string)
| NotAGroup (id : string).

(** State over [Graph] with failure. *)
Definition Build (A : Type) : Type := Graph → BuildError + A * Graph.

Global Instance Build_ret : MRet Build := λ A a g, inr (a, g).

Global Instance Build_bind : MBind Build := λ A B f m g,
  match m g with
  | inl e => inl e
  | inr (a, g') => f a g'
  end.

Global Instance Build_fmap : FMap Build := λ A B f m g,
  match m g with
  | inl e => inl e
  | inr (a, g') => inr (f a, g')
  end.

(** [new C(this, id, props)], and [HostedZone.fromLookup(this, id, props)]:
    the construct tree throws on an id already present in the scope, then the
    SDK constructor throws on properties it refuses; otherwise the node is
    added and the new object, identified by its id, is returned. *)
Definition declare (sdk : string → Node → bool) (id : string) (n : Node)
  : Build string := λ g,
  match children g !! id with
  | Some _ => inl (DuplicateId id)
  | None =>
      if sdk id n
      then inr (id, {| children := <[id := n]> (children g); grants := grants g |})
      else inl (Rejected id)
  end.

Definition grant (b : string) (a : s3.Access) (who : string) : Build unit := λ g,
  inr (tt, {| children := children g;
              grants := grants g ++
                [ {| s3.grant_bucket := b; s3.grant_access := a; s3.grantee := who |} ] |}).

Definition grantRead (b who : string) : Build unit := grant b s3.Read who.
Definition grantWrite (b who : string) : Build unit := grant b s3.Write who.
Definition grantReadWrite (b who : string) : Build unit := grant b s3.ReadWrite who.

(** [group.addUser(user)] mutates the group object held by the scope. *)
Definition addUser (grp user : string) : Build unit := λ g,
  match children g !! grp with
  | Some (NGroup ms) =>
      inr (tt, {| children := <[grp := NGroup (ms ++ [user])]> (children g);
                  grants := grants g |})
  | _ => inl (NotAGroup grp)
  end.

(** Attribute reads on declared objects. *)
Definition bucketName_of (b : string) : Value := [Attr b "bucketName"].
Definition userName_of (u : string) : Value := [Attr u "userName"].
Definition groupName_of (grp : string) : Value := [Attr grp "groupName"].
Definition distributionId_of (d : string) : Value := [Attr d "distributionId"].
Definition domainName_of (d : string) : Value := [Attr d "domainName"].

(** ** JavaScript truthiness of the optional properties *)

Definition truthy_bool (o : option bool) : bool :=
  match o with Some b => b | None => false end.

Definition truthy_string (o : option string) : bool :=
  match o with
  | Some s => match s with EmptyString => false | String _ _ => true end
  | None => false
  end.

(** ** The construct *)

Record StaticHostingProps : Type := {
  domainName : string;
  subDomainName : string;
  certificateArn : string;
  createDnsRecord : option bool;
  createPublisherGroup : option bool;
  createPublisherUser : option bool;
  extraDistributionCnames : option (list string);
  enableCloudFrontAccessLogging : option bool;
  zoneName : option string;
  customOriginConfigs : option (list cloudfront.SourceConfiguration);
  behaviors : option (list cloudfront.Behavior)
}.

Definition siteName (props : StaticHostingProps) : string :=
  subDomainName props +:+ "." +:+ domainName props.

Definition siteNameArray (props : StaticHostingProps) : list string :=
  [siteName props].

(** An array is an object, hence truthy even when empty: the conditionals on
    [extraDistributionCnames], [behaviors] and [customOriginConfigs] only
    distinguish a supplied array from [undefined]. *)
Definition distributionCnames (props : StaticHostingProps) : list string :=
  match extraDistributionCnames props with
  | Some extra => siteNameArray props ++ extra
  | None => siteNameArray props
  end.

(** The behavior the construct uses when the caller passes none. *)
Definition defaultBehavior : cloudfront.Behavior :=
  {| cloudfront.isDefaultBehavior := Some true;
     cloudfront.pathPattern := None;
     cloudfront.compress := None |}.

(** The origin pushed first onto [originConfigs]. *)
Definition defaultOrigin (props : StaticHostingProps) (bucket oai : string)
  : cloudfront.SourceConfiguration :=
  {| cloudfront.s3OriginSource :=
       Some {| cloudfront.s3BucketSource := bucket;
               cloudfront.originAccessIdentity := Some oai |};
     cloudfront.customOriginSource := None;
     cloudfront.behaviors :=
       match behaviors props with
       | Some bs => bs
       | None => [defaultBehavior]
       end |}.

Definition originConfigs (props : StaticHostingProps) (bucket oai : string)
  : list cloudfront.SourceConfiguration :=
  let originConfigs := [] ++ [defaultOrigin props bucket oai] in
  match customOriginConfigs props with
  | Some custom => originConfigs ++ custom
  | None => originConfigs
  end.

Definition loggingConfig (loggingBucket : option string)
  : option cloudfront.LoggingConfiguration :=
  match loggingBucket with
  | Some loggingBucket => Some {| cloudfront.bucket := loggingBucket |}
  | None => None
  end.

(** The properties handed to [new CloudFrontWebDistribution(this, 'BucketCdn', ...)]. *)
Definition distributionProps (props : StaticHostingProps) (bucket oai : string)
    (loggingConfig : option cloudfront.LoggingConfiguration)
  : cloudfront.CloudFrontWebDistributionProps :=
  {| cloudfront.aliasConfiguration :=
       {| cloudfront.acmCertRef := certificateArn props;
          cloudfront.names := distributionCnames props;
          cloudfront.securityPolicy := cloudfront.TLS_V1_2_2018;
          cloudfront.sslMethod := cloudfront.SNI |};
     cloudfront.originConfigs := originConfigs props bucket oai;
     cloudfront.errorConfigurations :=
       [ {| cloudfront.errorCode := 404;
            cloudfront.errorCachingMinTtl := 0;
            cloudfront.responseCode := 200;
            cloudfront.responsePagePath := "/index.html" |} ];
     cloudfront.priceClass := cloudfront.PRICE_CLASS_ALL;
     cloudfront.viewerProtocolPolicy := cloudfront.REDIRECT_TO_HTTPS;
     cloudfront.loggingConfig := loggingConfig |}.

Definition cloudFrontInvalidationPolicyStatement (distribution : string)
  : iam.PolicyStatement :=
  {| iam.effect := iam.ALLOW;
     iam.actions := ["cloudfront:CreateInvalidation";
                     "cloudfront:GetInvalidation";
                     "cloudfront:ListInvalidations"];
     iam.resources :=
       [ Lit "arn:aws:cloudfront::*:distribution/" :: distributionId_of distribution ] |}.

(** Runs [m] when the optional object is present. *)
Definition when_defined {A : Type} (o : option A) (m : A → Build unit) : Build unit :=
  match o with
  | Some a => m a
  | None => mret tt
  end.

Definition StaticHosting (sdk : string → Node → bool) (props : StaticHostingProps)
  : Build unit :=
  bucket ← declare sdk "ContentBucket" (NBucket
    {| s3.bucketName := siteName props;
       s3.encryption := s3.S3_MANAGED;
       s3.blockPublicAccess := s3.BLOCK_ALL;
       s3.removalPolicy := None |});
  declare sdk "Bucket" (NCfnOutput
    {| core.description := "BucketName";
       core.value := bucketName_of bucket |});;
  oai ← declare sdk "OriginAccessIdentity"
    (NOriginAccessIdentity "Allow CloudFront to access S3");
  grantRead bucket oai;;
  publisherUser ←
    (if truthy_bool (createPublisherUser props)
     then Some <$> declare sdk "PublisherUser" (NUser ("publisher-" +:+ siteName props))
     else mret None);
  when_defined publisherUser (λ publisherUser,
    declare sdk "PublisherUserName" (NCfnOutput
      {| core.description := "PublisherUser";
         core.value := userName_of publisherUser |});;
    mret tt);;
  publisherGroup ←
    (if truthy_bool (createPublisherGroup props)
     then Some <$> declare sdk "PublisherGroup" (NGroup [])
     else mret None);
  when_defined publisherGroup (λ publisherGroup,
    grantReadWrite bucket publisherGroup;;
    declare sdk "PublisherGroupName" (NCfnOutput
      {| core.description := "PublisherGroup";
         core.value := groupName_of publisherGroup |});;
    when_defined publisherUser (λ publisherUser,
      addUser publisherGroup publisherUser));;
  loggingBucket ←
    (if truthy_bool (enableCloudFrontAccessLogging props)
     then Some <$> declare sdk "LoggingBucket" (NBucket
       {| s3.bucketName := siteName props +:+ "-access-logs";
          s3.encryption := s3.S3_MANAGED;
          s3.blockPublicAccess := s3.BLOCK_ALL;
          s3.removalPolicy := Some core.RETAIN |})
     else mret None);
  when_defined loggingBucket (λ loggingBucket,
    grantWrite loggingBucket oai;;
    declare sdk "LoggingBucketName" (NCfnOutput
      {| core.description := "CloudFront Logs";
         core.value := bucketName_of loggingBucket |});;
    mret tt);;
  let loggingConfig := loggingConfig loggingBucket in
  distribution ← declare sdk "BucketCdn" (NDistribution
    (distributionProps props bucket oai loggingConfig));
  when_defined publisherGroup (λ publisherGroup,
    declare sdk "CloudFrontInvalidationPolicy" (NPolicy
      {| iam.users := None;
         iam.groups := Some [publisherGroup];
         iam.statements := [cloudFrontInvalidationPolicyStatement distribution] |});;
    mret tt);;
  declare sdk "DistributionId" (NCfnOutput
    {| core.description := "DistributionId";
       core.value := distributionId_of distribution |});;
  declare sdk "DistributionDomainName" (NCfnOutput
    {| core.description := "DistributionDomainName";
       core.value := domainName_of distribution |});;
  (if truthy_bool (createDnsRecord props) && truthy_string (zoneName props)
   then
     zone ← declare sdk "Zone" (NHostedZone
       {| route53.domainName := default "" (zoneName props) |});
     declare sdk "SiteAliasRecord" (NARecord
       {| route53.recordName := siteName props;
          route53.target := route53.CloudFrontTarget distribution;
          route53.zone := zone |});;
     mret tt
   else mret tt).

(** The graph built by instantiating the construct in a fresh scope. *)
Definition synth (sdk : string → Node → bool) (props : StaticHostingProps)
  : BuildError + Graph :=
  match StaticHosting sdk props empty_graph with
  | inl e => inl e
  | inr (_, g) => inr g
  end.

(** An SDK that refuses nothing. *)
Definition accept_all : string → Node → bool := λ _ _, true.

(** The graph the constructor builds when no declaration is refused;
    [synth_inr] below shows that every successful build yields it. *)
Definition graph_of (props : StaticHostingProps) : Graph :=
  match synth accept_all props with
  | inr g => g
  | inl _ => empty_graph
  end.

(** The id under which the constructor declares each kind of node. *)
Definition declared_under (id : string) (n : Node) : bool :=
  match n with
  | NBucket _ => bool_decide (id = "ContentBucket") || bool_decide (id = "LoggingBucket")
  | NCfnOutput _ =>
      bool_decide (id = "Bucket") || bool_decide (id = "PublisherUserName")
      || bool_decide (id = "PublisherGroupName") || bool_decide (id = "LoggingBucketName")
      || bool_decide (id = "DistributionId") || bool_decide (id = "DistributionDomainName")
  | NOriginAccessIdentity _ => bool_decide (id = "OriginAccessIdentity")
  | NUser _ => bool_decide (id = "PublisherUser")
  | NGroup _ => bool_decide (id = "PublisherGroup")
  | NDistribution _ => bool_decide (id = "BucketCdn")
  | NPolicy _ => bool_decide (id = "CloudFrontInvalidationPolicy")
  | NHostedZone _ => bool_decide (id = "Zone")
  | NARecord _ => bool_decide (id = "SiteAliasRecord")
  end.

(** A boolean test over every declared node of a graph. *)
Definition all_nodes (P : string → Node → bool) (g : Graph) : bool :=
  forallb (λ kn, P kn.1 kn.2) (map_to_list (children g)).

(** The outputs the constructor records, by feature. *)
Definition stack_outputs (user group logging : bool)
  : list (string * core.CfnOutputProps) :=
  [ ("Bucket", {| core.description := "BucketName";
                  core.value := bucketName_of "ContentBucket" |}) ]
  ++ (if user
      then [ ("PublisherUserName", {| core.description := "PublisherUser";
                                      core.value := userName_of "PublisherUser" |}) ]
      else [])
  ++ (if group
      then [ ("PublisherGroupName", {| core.description := "PublisherGroup";
                                       core.value := groupName_of "PublisherGroup" |}) ]
      else [])
  ++ (if logging
      then [ ("LoggingBucketName", {| core.description := "CloudFront Logs";
                                      core.value := bucketName_of "LoggingBucket" |}) ]
      else [])
  ++ [ ("DistributionId", {| core.description := "DistributionId";
                             core.value := distributionId_of "BucketCdn" |});
       ("DistributionDomainName", {| core.description := "DistributionDomainName";
                                     core.value := domainName_of "BucketCdn" |}) ].

(** The ids the constructor declares, by feature; [dns] stands for the guard
    of the alias record. *)
Definition declared_ids (user group logging dns : bool) : list string :=
  ["ContentBucket"; "Bucket"; "OriginAccessIdentity"]
  ++ (if user then ["PublisherUser"; "PublisherUserName"] else [])
  ++ (if group then ["PublisherGroup"; "PublisherGroupName"] else [])
  ++ (if logging then ["LoggingBucket"; "LoggingBucketName"] else [])
  ++ ["BucketCdn"]
  ++ (if group then ["CloudFrontInvalidationPolicy"] else [])
  ++ ["DistributionId"; "DistributionDomainName"]
  ++ (if dns then ["Zone"; "SiteAliasRecord"] else []).

(** A configuration with its four distribution-only properties replaced:
    the certificate, the extra aliases, the custom origins and the behaviors. *)
Definition with_cdn_settings (props : StaticHostingProps)
    (cert : string) (extra : option (list string))
    (custom : option (list cloudfront.SourceConfiguration))
    (bs : option (list cloudfront.Behavior)) : StaticHostingProps :=
  {| domainName := domainName props;
     subDomainName := subDomainName props;
     certificateArn := cert;
     createDnsRecord := createDnsRecord props;
     createPublisherGroup := createPublisherGroup props;
     createPublisherUser := createPublisherUser props;
     extraDistributionCnames := extra;
     enableCloudFrontAccessLogging := enableCloudFrontAccessLogging props;
     zoneName := zoneName props;
     customOriginConfigs := custom;
     behaviors := bs |}.

(** The declarations the constructor makes, in order, each with the
    properties it hands to the SDK. *)
Definition declarations (props : StaticHostingProps) : list (string * Node) :=
  let user := truthy_bool (createPublisherUser props) in
  let group := truthy_bool (createPublisherGroup props) in
  let logging := truthy_bool (enableCloudFrontAccessLogging props) in
  let dns := truthy_bool (createDnsRecord props) && truthy_string (zoneName props) in
  [ ("ContentBucket", NBucket
       {| s3.bucketName := siteName props;
          s3.encryption := s3.S3_MANAGED;
          s3.blockPublicAccess := s3.BLOCK_ALL;
          s3.removalPolicy := None |});
    ("Bucket", NCfnOutput
       {| core.description := "BucketName";
          core.value := bucketName_of "ContentBucket" |});
    ("OriginAccessIdentity", NOriginAccessIdentity "Allow CloudFront to access S3") ]
  ++ (if user
      then [ ("PublisherUser", NUser ("publisher-" +:+ siteName props));
             ("PublisherUserName", NCfnOutput
                {| core.description := "PublisherUser";
                   core.value := userName_of "PublisherUser" |}) ]
      else [])
  ++ (if group
      then [ ("PublisherGroup", NGroup []);
             ("PublisherGroupName", NCfnOutput
                {| core.description := "PublisherGroup";
                   core.value := groupName_of "PublisherGroup" |}) ]
      else [])
  ++ (if logging
      then [ ("LoggingBucket", NBucket
                {| s3.bucketName := siteName props +:+ "-access-logs";
                   s3.encryption := s3.S3_MANAGED;
                   s3.blockPublicAccess := s3.BLOCK_ALL;
                   s3.removalPolicy := Some core.RETAIN |});
             ("LoggingBucketName", NCfnOutput
                {| core.description := "CloudFront Logs";
                   core.value := bucketName_of "LoggingBucket" |}) ]
      else [])
  ++ [ ("BucketCdn", NDistribution
          (distributionProps props "ContentBucket" "OriginAccessIdentity"
             (loggingConfig (if logging then Some "LoggingBucket" else None)))) ]
  ++ (if group
      then [ ("CloudFrontInvalidationPolicy", NPolicy
                {| iam.users := None;
                   iam.groups := Some ["PublisherGroup"];
                   iam.statements :=
                     [cloudFrontInvalidationPolicyStatement "BucketCdn"] |}) ]
      else [])
  ++ [ ("DistributionId", NCfnOutput
          {| core.description := "DistributionId";
             core.value := distributionId_of "BucketCdn" |});
       ("DistributionDomainName", NCfnOutput
          {| core.description := "DistributionDomainName";
             core.value := domainName_of "BucketCdn" |}) ]
  ++ (if dns
      then [ ("Zone", NHostedZone
                {| route53.domainName := default "" (zoneName props) |});
             ("SiteAliasRecord", NARecord
                {| route53.recordName := siteName props;
                   route53.target := route53.CloudFrontTarget "BucketCdn";
                   route53.zone := "Zone" |}) ]
      else []).

(** The id of the first declaration the SDK refuses, if any. *)
Fixpoint first_rejected (sdk : string → Node → bool) (ds : list (string * Node))
  : option string :=
  match ds with
  | [] => None
  | (id, n) :: ds => if sdk id n then first_rejected sdk ds else Some id
  end.


(** A build [m] under [sdk] against the same build [m'] under [accept_all],
    from any scope: when [m] succeeds, [m'] succeeds with the same result,
    which satisfies [Q]; when [m] fails on a refusal, the refused declaration
    satisfies [P]; any other failure of [m] is a failure of [m'] too. *)
Definition sim (sdk : string → Node → bool) (P : string → Node → Prop)
    {A : Type} (Q : A → Prop) (m m' : Build A) : Prop :=
  ∀ g,
    match m g with
    | inr (a, g') => m' g = inr (a, g') ∧ Q a
    | inl (Rejected id) => ∃ n, P id n ∧ sdk id n = false
    | inl e => m' g = inl e
    end.

(** ** The checks of the SDK constructors

    What the constructors of the SDK refuse among the properties this
    construct can hand them: [Bucket] validates a non-empty bucket name,
    [CloudFrontWebDistribution] validates its origins and behaviors, and
    [HostedZone.fromLookup] needs a stack with an account and a region. *)

Definition is_digit (c : Ascii.ascii) : bool :=
  let n := Ascii.nat_of_ascii c in (48 <=? n)%nat && (n <=? 57)%nat.

Definition is_lower (c : Ascii.ascii) : bool :=
  let n := Ascii.nat_of_ascii c in (97 <=? n)%nat && (n <=? 122)%nat.

Definition is_alnum (c : Ascii.ascii) : bool := is_lower c || is_digit c.

(** Character codes 46 and 45. *)
Definition is_dot (c : Ascii.ascii) : bool := (Ascii.nat_of_ascii c =? 46)%nat.
Definition is_dash (c : Ascii.ascii) : bool := (Ascii.nat_of_ascii c =? 45)%nat.

(** No match of [/\.-|-\.|\.\./]. *)
Fixpoint no_adjacent_symbols (cs : list Ascii.ascii) : bool :=
  match cs with
  | a :: (b :: _) as rest =>
      negb (is_dot a && is_dash b || is_dash a && is_dot b || is_dot a && is_dot b)
      && no_adjacent_symbols rest
  | _ => true
  end.

(** The pieces of a name between its dots. *)
Fixpoint labels (cs : list Ascii.ascii) : list (list Ascii.ascii) :=
  match cs with
  | [] => [[]]
  | c :: cs =>
      if is_dot c then [] :: labels cs
      else match labels cs with
           | l :: ls => (c :: l) :: ls
           | [] => [[c]]
           end
  end.

(** A match of [/^\d{1,3}\.\d{1,3}\.\d{1,3}\.\d{1,3}$/]. *)
Definition ip_shaped (cs : list Ascii.ascii) : bool :=
  let ls := labels cs in
  (length ls =? 4)%nat
  && forallb (λ l, (1 <=? length l)%nat && (length l <=? 3)%nat && forallb is_digit l) ls.

Definition legal_bucket_name (name : string) : bool :=
  let cs := String.list_ascii_of_string name in
  match cs with
  | [] => true
  | first :: _ =>
      (3 <=? length cs)%nat && (length cs <=? 63)%nat
      && forallb (λ c, is_alnum c || is_dot c || is_dash c) cs
      && is_alnum first
      && is_alnum (List.last cs first)
      && no_adjacent_symbols cs
      && negb (ip_shaped cs)
  end.

(** Each source has exactly one of an S3 and a custom origin; there is exactly
    one default behavior across all sources; every other behavior has a path
    pattern. *)
Definition legal_origins (origins : list cloudfront.SourceConfiguration) : bool :=
  let all_behaviors := concat (map cloudfront.behaviors origins) in
  forallb (λ o, xorb (bool_decide (is_Some (cloudfront.s3OriginSource o)))
                     (bool_decide (is_Some (cloudfront.customOriginSource o))))
          origins
  && (length (filter (λ b, truthy_bool (cloudfront.isDefaultBehavior b) = true)
                     all_behaviors) =? 1)%nat
  && forallb (λ b, truthy_bool (cloudfront.isDefaultBehavior b)
                   || truthy_string (cloudfront.pathPattern b))
             all_behaviors.

(** [env] tells whether the stack has an account and a region. *)
Definition cdk_checks (env : bool) (id : string) (n : Node) : bool :=
  match n with
  | NBucket p => legal_bucket_name (s3.bucketName p)
  | NDistribution d => legal_origins (cloudfront.originConfigs d)
  | NHostedZone _ => env
  | _ => true
  end.

(** ** Sample configurations *)

Definition site_minimal : StaticHostingProps :=
  {| domainName := "example.com";
     subDomainName := "www";
     certificateArn := "arn:aws:acm:us-east-1:111122223333:certificate/abc";
     createDnsRecord := None;
     createPublisherGroup := None;
     createPublisherUser := None;
     extraDistributionCnames := None;
     enableCloudFrontAccessLogging := None;
     zoneName := None;
     customOriginConfigs := None;
     behaviors := None |}.

Definition api_behavior : cloudfront.Behavior :=
  {| cloudfront.isDefaultBehavior := None;
     cloudfront.pathPattern := Some "/api/*";
     cloudfront.compress := Some true |}.

Definition api_origin : cloudfront.SourceConfiguration :=
  {| cloudfront.s3OriginSource := None;
     cloudfront.customOriginSource := Some {| cloudfront.domainName := "api.example.com" |};
     cloudfront.behaviors := [api_behavior] |}.

Definition site_full : StaticHostingProps :=
  {| domainName := "example.com";
     subDomainName := "www";
     certificateArn := "arn:aws:acm:us-east-1:111122223333:certificate/abc";
     createDnsRecord := Some true;
     createPublisherGroup := Some true;
     createPublisherUser := Some true;
     extraDistributionCnames := Some ["alt.example.com"];
     enableCloudFrontAccessLogging := Some true;
     zoneName := Some "example.com";
     customOriginConfigs := Some [api_origin];
     behaviors := Some [defaultBehavior; api_behavior] |}.

(** A publisher group without a publisher user, and a DNS flag without a zone. *)
Definition site_group_only : StaticHostingProps :=
  {| domainName := "example.com";
     subDomainName := "www";
     certificateArn := "arn:aws:acm:us-east-1:111122223333:certificate/abc";
     createDnsRecord := Some true;
     createPublisherGroup := Some true;
     createPublisherUser := Some false;
     extraDistributionCnames := Some [];
     enableCloudFrontAccessLogging := Some false;
     zoneName := Some "";
     customOriginConfigs := None;
     behaviors := None |}.

(** A custom origin that carries the default behavior, so that the bucket
    origin can be left without any. *)
Definition app_origin : cloudfront.SourceConfiguration :=
  {| cloudfront.s3OriginSource := None;
     cloudfront.customOriginSource := Some {| cloudfront.domainName := "app.example.com" |};
     cloudfront.behaviors := [defaultBehavior] |}.

Definition site_app_default : StaticHostingProps :=
  {| domainName := "example.com";
     subDomainName := "www";
     certificateArn := "arn:aws:acm:us-east-1:111122223333:certificate/abc";
     createDnsRecord := None;
     createPublisherGroup := None;
     createPublisherUser := None;
     extraDistributionCnames := None;
     enableCloudFrontAccessLogging := None;
     zoneName := None;
     customOriginConfigs := Some [app_origin];
     behaviors := Some [] |}.

(** Configurations the SDK refuses: an empty sub-domain; a behavior list
    without a default behavior; a hostname of 52 characters with access
    logging, whose logging bucket name has 64. *)
Definition site_no_subdomain : StaticHostingProps :=
  {| domainName := "example.com";
     subDomainName := "";
     certificateArn := "arn:aws:acm:us-east-1:111122223333:certificate/abc";
     createDnsRecord := Some true;
     createPublisherGroup := None;
     createPublisherUser := None;
     extraDistributionCnames := None;
     enableCloudFrontAccessLogging := None;
     zoneName := Some "";
     customOriginConfigs := None;
     behaviors := None |}.

Definition site_no_default_behavior : StaticHostingProps :=
  {| domainName := "example.com";
     subDomainName := "www";
     certificateArn := "arn:aws:acm:us-east-1:111122223333:certificate/abc";
     createDnsRecord := None;
     createPublisherGroup := Some true;
     createPublisherUser := None;
     extraDistributionCnames := None;
     enableCloudFrontAccessLogging := None;
     zoneName := None;
     customOriginConfigs := None;
     behaviors := Some [api_behavior] |}.

Definition site_long_hostname : StaticHostingProps :=
  {| domainName := "example.com";
     subDomainName := "aaaaaaaaaabbbbbbbbbbccccccccccdddddddddd";
     certificateArn := "arn:aws:acm:us-east-1:111122223333:certificate/abc";
     createDnsRecord := None;
     createPublisherGroup := None;
     createPublisherUser := None;
     extraDistributionCnames := None;
     enableCloudFrontAccessLogging := Some true;
     zoneName := None;
     customOriginConfigs := None;
     behaviors := None |}.

(** ** Truthiness lemmas *)

Lemma truthy_bool_true (o : option bool) : truthy_bool o = true ↔ o = Some true.
Proof. destruct o as [[]|]; simpl; split; congruence. Qed.

Lemma truthy_bool_false (o : option bool) : truthy_bool o = false ↔ o ≠ Some true.
Proof. destruct o as [[]|]; simpl; split; congruence. Qed.

Lemma truthy_string_true (o : option string) :
  truthy_string o = true ↔ ∃ z, o = Some z ∧ z ≠ "".
Proof.
  destruct o as [[|a s]|]; simpl; split.
  - discriminate.
  - intros (z & [= <-] & Hz). by destruct Hz.
  - intros _. by exists (String a s).
  - done.
  - discriminate.
  - by intros (z & [=] & _).
Qed.


(** ** The shape of the built graph

    The constructor branches on four conditions only: the three feature flags
    and the DNS guard.  Each lemma of this section splits on them and
    evaluates the build. *)

Lemma all_nodes_spec (P : string → Node → bool) (g : Graph) :
  all_nodes P g = true →
  ∀ id n, children g !! id = Some n → P id n = true.
Proof.
  unfold all_nodes. rewrite forallb_forall. intros HP id n Hl.
  apply (HP (id, n)), list_elem_of_In, elem_of_map_to_list, Hl.
Qed.

Ltac flag_cases props :=
  unfold graph_of, synth, StaticHosting;
  destruct (truthy_bool (createPublisherUser props));
  destruct (truthy_bool (createPublisherGroup props));
  destruct (truthy_bool (enableCloudFrontAccessLogging props));
  destruct (truthy_bool (createDnsRecord props) && truthy_string (zoneName props)).

Ltac by_evaluation props := flag_cases props; vm_compute; reflexivity.

Section shape.
Variable props : StaticHostingProps.

Let user := truthy_bool (createPublisherUser props).
Let group := truthy_bool (createPublisherGroup props).
Let logging := truthy_bool (enableCloudFrontAccessLogging props).
Let dns := truthy_bool (createDnsRecord props) && truthy_string (zoneName props).

(** With nothing refused the build goes through: no id is declared twice and
    [addUser] is only ever called on the group. *)
Lemma synth_ok : synth accept_all props = inr (graph_of props).
Proof. by_evaluation props. Qed.

Lemma node_ids (id : string) (n : Node) :
  children (graph_of props) !! id = Some n → declared_under id n = true.
Proof. apply all_nodes_spec. by_evaluation props. Qed.

Lemma lookup_ContentBucket :
  children (graph_of props) !! "ContentBucket" =
  Some (NBucket {| s3.bucketName := siteName props;
                   s3.encryption := s3.S3_MANAGED;
                   s3.blockPublicAccess := s3.BLOCK_ALL;
                   s3.removalPolicy := None |}).
Proof. by_evaluation props. Qed.

Lemma lookup_OriginAccessIdentity :
  children (graph_of props) !! "OriginAccessIdentity" =
  Some (NOriginAccessIdentity "Allow CloudFront to access S3").
Proof. by_evaluation props. Qed.

Lemma lookup_PublisherUser :
  children (graph_of props) !! "PublisherUser" =
  if user then Some (NUser ("publisher-" +:+ siteName props)) else None.
Proof. subst user. by_evaluation props. Qed.

Lemma lookup_PublisherUserName :
  children (graph_of props) !! "PublisherUserName" =
  if user
  then Some (NCfnOutput {| core.description := "PublisherUser";
                           core.value := userName_of "PublisherUser" |})
  else None.
Proof. subst user. by_evaluation props. Qed.

Lemma lookup_PublisherGroup :
  children (graph_of props) !! "PublisherGroup" =
  if group then Some (NGroup (if user then ["PublisherUser"] else [])) else None.
Proof. subst user group. by_evaluation props. Qed.

Lemma lookup_LoggingBucket :
  children (graph_of props) !! "LoggingBucket" =
  if logging
  then Some (NBucket {| s3.bucketName := siteName props +:+ "-access-logs";
                        s3.encryption := s3.S3_MANAGED;
                        s3.blockPublicAccess := s3.BLOCK_ALL;
                        s3.removalPolicy := Some core.RETAIN |})
  else None.
Proof. subst logging. by_evaluation props. Qed.

Lemma lookup_LoggingBucketName :
  children (graph_of props) !! "LoggingBucketName" =
  if logging
  then Some (NCfnOutput {| core.description := "CloudFront Logs";
                           core.value := bucketName_of "LoggingBucket" |})
  else None.
Proof. subst logging. by_evaluation props. Qed.

Lemma lookup_BucketCdn :
  children (graph_of props) !! "BucketCdn" =
  Some (NDistribution
          (distributionProps props "ContentBucket" "OriginAccessIdentity"
             (loggingConfig (if logging then Some "LoggingBucket" else None)))).
Proof. subst logging. by_evaluation props. Qed.

Lemma lookup_CloudFrontInvalidationPolicy :
  children (graph_of props) !! "CloudFrontInvalidationPolicy" =
  if group
  then Some (NPolicy
               {| iam.users := None;
                  iam.groups := Some ["PublisherGroup"];
                  iam.statements := [cloudFrontInvalidationPolicyStatement "BucketCdn"] |})
  else None.
Proof. subst group. by_evaluation props. Qed.

Lemma lookup_SiteAliasRecord :
  children (graph_of props) !! "SiteAliasRecord" =
  if dns
  then Some (NARecord {| route53.recordName := siteName props;
                         route53.target := route53.CloudFrontTarget "BucketCdn";
                         route53.zone := "Zone" |})
  else None.
Proof. subst dns. by_evaluation props. Qed.

Lemma lookup_Bucket :
  children (graph_of props) !! "Bucket" =
  Some (NCfnOutput {| core.description := "BucketName";
                      core.value := bucketName_of "ContentBucket" |}).
Proof. by_evaluation props. Qed.

Lemma lookup_PublisherGroupName :
  children (graph_of props) !! "PublisherGroupName" =
  if group
  then Some (NCfnOutput {| core.description := "PublisherGroup";
                           core.value := groupName_of "PublisherGroup" |})
  else None.
Proof. subst group. by_evaluation props. Qed.

Lemma lookup_DistributionId :
  children (graph_of props) !! "DistributionId" =
  Some (NCfnOutput {| core.description := "DistributionId";
                      core.value := distributionId_of "BucketCdn" |}).
Proof. by_evaluation props. Qed.

Lemma lookup_DistributionDomainName :
  children (graph_of props) !! "DistributionDomainName" =
  Some (NCfnOutput {| core.description := "DistributionDomainName";
                      core.value := domainName_of "BucketCdn" |}).
Proof. by_evaluation props. Qed.

Lemma lookup_Zone :
  children (graph_of props) !! "Zone" =
  if dns
  then Some (NHostedZone {| route53.domainName := default "" (zoneName props) |})
  else None.
Proof. subst dns. by_evaluation props. Qed.

Lemma grants_graph_of :
  grants (graph_of props) =
  [ {| s3.grant_bucket := "ContentBucket"; s3.grant_access := s3.Read;
       s3.grantee := "OriginAccessIdentity" |} ]
  ++ (if group
      then [ {| s3.grant_bucket := "ContentBucket"; s3.grant_access := s3.ReadWrite;
                s3.grantee := "PublisherGroup" |} ]
      else [])
  ++ (if logging
      then [ {| s3.grant_bucket := "LoggingBucket"; s3.grant_access := s3.Write;
                s3.grantee := "OriginAccessIdentity" |} ]
      else []).
Proof. subst group logging. by_evaluation props. Qed.
End shape.

(** Every output node of the graph is one of [stack_outputs]. *)
Lemma output_cases (props : StaticHostingProps) (id : string) (o : core.CfnOutputProps) :
  children (graph_of props) !! id = Some (NCfnOutput o) →
  (id, o) ∈ stack_outputs (truthy_bool (createPublisherUser props))
              (truthy_bool (createPublisherGroup props))
              (truthy_bool (enableCloudFrontAccessLogging props)).
Proof.
  intros Hl. pose proof (node_ids props _ _ Hl) as Hid. cbn [declared_under] in Hid.
  unfold stack_outputs.
  repeat (apply orb_true_iff in Hid as [Hid|Hid]);
    apply bool_decide_eq_true in Hid; subst id; revert Hl.
  - rewrite lookup_Bucket. intros [= <-]. apply list_elem_of_here.
  - rewrite lookup_PublisherUserName.
    destruct (truthy_bool (createPublisherUser props)); [|discriminate].
    intros [= <-]. apply list_elem_of_further, list_elem_of_here.
  - rewrite lookup_PublisherGroupName.
    destruct (truthy_bool (createPublisherGroup props)); [|discriminate].
    intros [= <-]. rewrite !elem_of_app. right; right; left. apply list_elem_of_here.
  - rewrite lookup_LoggingBucketName.
    destruct (truthy_bool (enableCloudFrontAccessLogging props)); [|discriminate].
    intros [= <-]. rewrite !elem_of_app. do 3 right. left. apply list_elem_of_here.
  - rewrite lookup_DistributionId. intros [= <-].
    rewrite !elem_of_app. do 4 right. apply list_elem_of_here.
  - rewrite lookup_DistributionDomainName. intros [= <-].
    rewrite !elem_of_app. do 4 right. apply list_elem_of_further, list_elem_of_here.
Qed.

(** ** Builds under an arbitrary SDK

    A build under [sdk] follows the build under [accept_all] step by step
    until the SDK refuses a declaration. *)

Section sim.
Variable sdk : string → Node → bool.
Variable P : string → Node → Prop.

Lemma sim_ret {A} (Q : A → Prop) (a : A) : Q a → sim sdk P Q (mret a) (mret a).
Proof. intros HQ g. by split. Qed.

Lemma sim_bind {A B} (Q1 : A → Prop) (Q2 : B → Prop)
    (m m' : Build A) (k k' : A → Build B) :
  sim sdk P Q1 m m' →
  (∀ a, Q1 a → sim sdk P Q2 (k a) (k' a)) →
  sim sdk P Q2 (m ≫= k) (m' ≫= k').
Proof.
  intros Hm Hk g. unfold mbind, Build_bind. specialize (Hm g).
  destruct (m g) as [[id|id|id]|[a g1]].
  - by rewrite Hm.
  - exact Hm.
  - by rewrite Hm.
  - destruct Hm as [-> Ha]. apply (Hk a Ha g1).
Qed.

Lemma sim_declare (id : string) (n : Node) :
  P id n → sim sdk P (λ a, a = id) (declare sdk id n) (declare accept_all id n).
Proof.
  intros HP g. unfold declare, accept_all.
  destruct (children g !! id); [reflexivity|].
  destruct (sdk id n) eqn:Hsdk; [by split|]. by exists n.
Qed.

Lemma sim_declare_some (id : string) (n : Node) :
  P id n →
  sim sdk P (λ o, o = Some id) (Some <$> declare sdk id n)
    (Some <$> declare accept_all id n).
Proof.
  intros HP g. unfold fmap, Build_fmap, declare, accept_all.
  destruct (children g !! id); [reflexivity|].
  destruct (sdk id n) eqn:Hsdk; [by split|]. by exists n.
Qed.

Lemma sim_grant (b : string) (a : s3.Access) (who : string) :
  sim sdk P (λ _, True) (grant b a who) (grant b a who).
Proof. intros g. by split. Qed.

Lemma sim_addUser (grp user : string) :
  sim sdk P (λ _, True) (addUser grp user) (addUser grp user).
Proof.
  intros g. unfold addUser. destruct (children g !! grp) as [[]|]; try reflexivity.
  by split.
Qed.
End sim.

(** Membership of a declaration in [declarations], once the flags are known. *)
Ltac in_declarations Huser Hgroup Hlog Hdns :=
  unfold declarations; cbv zeta; rewrite ?Huser, ?Hgroup, ?Hlog, ?Hdns;
  cbn [app];
  repeat first [ apply list_elem_of_here | apply list_elem_of_further ].

(** Follows the statements of a build, one rule of [sim] per statement. *)
Ltac sim_go tac :=
  cbv beta iota zeta delta [when_defined grantRead grantWrite grantReadWrite];
  lazymatch goal with
  | |- sim _ _ _ (mbind _ _) _ =>
      eapply sim_bind;
      [ sim_go tac
      | let a := fresh "a" in
        let Ha := fresh "Ha" in
        intros a Ha; cbv beta in Ha; subst; sim_go tac ]
  | |- sim _ _ _ (fmap Some (declare _ _ _)) _ =>
      apply sim_declare_some; tac
  | |- sim _ _ _ (declare _ _ _) _ => apply sim_declare; tac
  | |- sim _ _ _ (grant _ _ _) _ => apply sim_grant
  | |- sim _ _ _ (addUser _ _) _ => apply sim_addUser
  | |- sim ?sdk ?P _ (mret ?a) _ =>
      first [ apply (sim_ret sdk P (λ x, x = a) a eq_refl)
            | apply sim_ret; exact I ]
  end.

Lemma StaticHosting_sim (sdk : string → Node → bool) (props : StaticHostingProps) :
  sim sdk (λ id n, (id, n) ∈ declarations props) (λ _, True)
    (StaticHosting sdk props) (StaticHosting accept_all props).
Proof.
  unfold StaticHosting.
  destruct (truthy_bool (createPublisherUser props)) eqn:Huser;
  destruct (truthy_bool (createPublisherGroup props)) eqn:Hgroup;
  destruct (truthy_bool (enableCloudFrontAccessLogging props)) eqn:Hlog;
  destruct (truthy_bool (createDnsRecord props) && truthy_string (zoneName props))
    eqn:Hdns;
  sim_go ltac:(in_declarations Huser Hgroup Hlog Hdns).
Qed.

(** A build that succeeds yields the graph of the unrefused build. *)
Lemma synth_inr (sdk : string → Node → bool) (props : StaticHostingProps) (g : Graph) :
  synth sdk props = inr g → g = graph_of props.
Proof.
  unfold graph_of, synth. pose proof (StaticHosting_sim sdk props empty_graph) as Hsim.
  destruct (StaticHosting sdk props empty_graph) as [e|[[] g']]; [discriminate|].
  intros [= <-]. destruct Hsim as [-> _]. reflexivity.
Qed.

(** A build only fails on a declaration that the SDK refuses. *)
Lemma synth_inl (sdk : string → Node → bool) (props : StaticHostingProps) (e : BuildError) :
  synth sdk props = inl e →
  ∃ id n, e = Rejected id ∧ (id, n) ∈ declarations props ∧ sdk id n = false.
Proof.
  pose proof (synth_ok props) as Hok. revert Hok. unfold synth.
  pose proof (StaticHosting_sim sdk props empty_graph) as Hsim.
  destruct (StaticHosting sdk props empty_graph) as [[id|id|id]|[[] g']].
  - rewrite Hsim. discriminate.
  - intros _ [= <-]. destruct Hsim as (n & Hin & Hsdk). eauto.
  - rewrite Hsim. discriminate.
  - discriminate.
Qed.

Lemma synth_accepted (sdk : string → Node → bool) (props : StaticHostingProps) :
  forallb (λ d, sdk d.1 d.2) (declarations props) = true →
  synth sdk props = inr (graph_of props).
Proof.
  intros Hall. destruct (synth sdk props) as [e|g] eqn:Hs.
  - apply synth_inl in Hs as (id & n & _ & Hin & Hsdk).
    rewrite forallb_forall in Hall.
    apply list_elem_of_In, Hall in Hin. simpl in Hin. congruence.
  - by apply synth_inr in Hs as ->.
Qed.

(** The sample configurations the SDK accepts, on a stack with an
    environment. *)
Lemma site_minimal_builds :
  synth (cdk_checks true) site_minimal = inr (graph_of site_minimal).
Proof. apply synth_accepted. vm_compute. reflexivity. Qed.

Lemma site_full_builds :
  synth (cdk_checks true) site_full = inr (graph_of site_full).
Proof. apply synth_accepted. vm_compute. reflexivity. Qed.

Lemma site_group_only_builds :
  synth (cdk_checks true) site_group_only = inr (graph_of site_group_only).
Proof. apply synth_accepted. vm_compute. reflexivity. Qed.

Lemma site_app_default_builds :
  synth (cdk_checks true) site_app_default = inr (graph_of site_app_default).
Proof. apply synth_accepted. vm_compute. reflexivity. Qed.

(** ** Naming and aliases *)

(** C2: in every graph the constructor builds, the content bucket is declared
    with the name sub-domain, then ".", then domain. *)
Theorem content_bucket_name (sdk : string → Node → bool)
    (props : StaticHostingProps) (g : Graph) :
  synth sdk props = inr g →
  ∃ b,
    children g !! "ContentBucket" = Some (NBucket b) ∧
    s3.bucketName b = subDomainName props +:+ "." +:+ domainName props.
Proof.
  intros Hs. apply synth_inr in Hs as ->. eexists.
  split; [apply lookup_ContentBucket|]. reflexivity.
Qed.

Lemma content_bucket_name_witness :
  ∃ g b,
    synth (cdk_checks true) site_minimal = inr g ∧
    children g !! "ContentBucket" = Some (NBucket b) ∧
    s3.bucketName b = "www.example.com".
Proof.
  destruct (content_bucket_name _ _ _ site_minimal_builds) as (b & Hb & Hname).
  exists (graph_of site_minimal), b. split; [apply site_minimal_builds|].
  by split.
Defined.

(** C3: in every graph the constructor builds, the alias list of the
    distribution starts with the canonical hostname; it is the hostname
    followed by the supplied extra names, in order, when
    [extraDistributionCnames] is given, and the hostname alone when it is
    absent. *)
Theorem distribution_aliases (sdk : string → Node → bool)
    (props : StaticHostingProps) (g : Graph) :
  let hostname := subDomainName props +:+ "." +:+ domainName props in
  synth sdk props = inr g →
  ∃ d,
    children g !! "BucketCdn" = Some (NDistribution d) ∧
    head (cloudfront.names (cloudfront.aliasConfiguration d)) = Some hostname ∧
    (∀ extra, extraDistributionCnames props = Some extra →
       cloudfront.names (cloudfront.aliasConfiguration d) = hostname :: extra) ∧
    (extraDistributionCnames props = None →
       cloudfront.names (cloudfront.aliasConfiguration d) = [hostname]).
Proof.
  intros hostname Hs. apply synth_inr in Hs as ->. eexists.
  split; [apply lookup_BucketCdn|].
  cbn [distributionProps cloudfront.aliasConfiguration cloudfront.names].
  unfold distributionCnames, siteNameArray, siteName.
  destruct (extraDistributionCnames props) as [extra|]; repeat split.
  - by intros ? [= <-].
  - discriminate.
  - discriminate.
Qed.

Lemma distribution_aliases_witness :
  ∃ g d,
    synth (cdk_checks true) site_full = inr g ∧
    children g !! "BucketCdn" = Some (NDistribution d) ∧
    cloudfront.names (cloudfront.aliasConfiguration d) =
      ["www.example.com"; "alt.example.com"].
Proof.
  destruct (distribution_aliases _ _ _ site_full_builds) as (d & Hd & _ & Hextra & _).
  exists (graph_of site_full), d. split; [apply site_full_builds|].
  split; [exact Hd|]. by apply Hextra.
Defined.

(** ** Origins and behaviors *)

(** What is true of the distribution's first origin whatever the
    configuration: it is the content bucket read through the access identity,
    and both are declared in the graph. *)
Lemma default_origin_first (props : StaticHostingProps) :
  ∃ custom,
    originConfigs props "ContentBucket" "OriginAccessIdentity" =
      defaultOrigin props "ContentBucket" "OriginAccessIdentity" :: custom ∧
    custom = default [] (customOriginConfigs props).
Proof.
  unfold originConfigs. destruct (customOriginConfigs props); simpl; eauto.
Qed.

(** C4: in every graph the constructor builds, the behavior list of the
    default, bucket-backed origin is exactly the supplied [behaviors] list
    when a non-empty one is given, and the single catch-all behavior when
    [behaviors] is absent. *)
Theorem default_origin_behaviors (sdk : string → Node → bool)
    (props : StaticHostingProps) (g : Graph) :
  synth sdk props = inr g →
  ∃ d o,
    children g !! "BucketCdn" = Some (NDistribution d) ∧
    cloudfront.originConfigs d !! 0 = Some o ∧
    cloudfront.s3OriginSource o =
      Some {| cloudfront.s3BucketSource := "ContentBucket";
              cloudfront.originAccessIdentity := Some "OriginAccessIdentity" |} ∧
    (∀ bs, behaviors props = Some bs → bs ≠ [] → cloudfront.behaviors o = bs) ∧
    (behaviors props = None →
       cloudfront.behaviors o =
         [ {| cloudfront.isDefaultBehavior := Some true;
              cloudfront.pathPattern := None;
              cloudfront.compress := None |} ]).
Proof.
  intros Hs. apply synth_inr in Hs as ->. eexists. eexists.
  split; [apply lookup_BucketCdn|].
  cbn [distributionProps cloudfront.originConfigs].
  destruct (default_origin_first props) as (custom & -> & _).
  split; [reflexivity|]. split; [reflexivity|].
  cbn [defaultOrigin cloudfront.behaviors]. split.
  - by intros bs -> _.
  - by intros ->.
Qed.

Lemma default_origin_behaviors_witness :
  (∃ g d o,
     synth (cdk_checks true) site_full = inr g ∧
     children g !! "BucketCdn" = Some (NDistribution d) ∧
     cloudfront.originConfigs d !! 0 = Some o ∧
     cloudfront.behaviors o = [defaultBehavior; api_behavior]) ∧
  (∃ g d o,
     synth (cdk_checks true) site_minimal = inr g ∧
     children g !! "BucketCdn" = Some (NDistribution d) ∧
     cloudfront.originConfigs d !! 0 = Some o ∧
     cloudfront.behaviors o = [defaultBehavior]).
Proof.
  split.
  - destruct (default_origin_behaviors _ _ _ site_full_builds)
      as (d & o & Hd & Ho & _ & Hbs & _).
    exists (graph_of site_full), d, o. split; [apply site_full_builds|].
    split; [exact Hd|]. split; [exact Ho|]. by apply Hbs.
  - destruct (default_origin_behaviors _ _ _ site_minimal_builds)
      as (d & o & Hd & Ho & _ & _ & Hnone).
    exists (graph_of site_minimal), d, o. split; [apply site_minimal_builds|].
    split; [exact Hd|]. split; [exact Ho|]. by apply Hnone.
Defined.

(** C10: in every graph the constructor builds, a supplied [behaviors] list
    replaces the catch-all behavior whether or not it has elements; in
    particular the empty list leaves the default origin with no behavior at
    all. *)
Theorem empty_behaviors_replace_default (sdk : string → Node → bool)
    (props : StaticHostingProps) (bs : list cloudfront.Behavior) (g : Graph) :
  behaviors props = Some bs →
  synth sdk props = inr g →
  ∃ d o,
    children g !! "BucketCdn" = Some (NDistribution d) ∧
    cloudfront.originConfigs d !! 0 = Some o ∧
    cloudfront.s3OriginSource o =
      Some {| cloudfront.s3BucketSource := "ContentBucket";
              cloudfront.originAccessIdentity := Some "OriginAccessIdentity" |} ∧
    cloudfront.behaviors o = bs ∧
    (bs = [] → cloudfront.behaviors o = []).
Proof.
  intros Hbs Hs. apply synth_inr in Hs as ->. eexists. eexists.
  split; [apply lookup_BucketCdn|].
  cbn [distributionProps cloudfront.originConfigs].
  destruct (default_origin_first props) as (custom & -> & _).
  split; [reflexivity|]. split; [reflexivity|].
  cbn [defaultOrigin cloudfront.behaviors]. rewrite Hbs. by split.
Qed.

Lemma empty_behaviors_replace_default_witness :
  behaviors site_app_default = Some [] ∧
  ∃ g d o,
    synth (cdk_checks true) site_app_default = inr g ∧
    children g !! "BucketCdn" = Some (NDistribution d) ∧
    cloudfront.originConfigs d !! 0 = Some o ∧
    cloudfront.behaviors o = [].
Proof.
  split; [reflexivity|].
  destruct (empty_behaviors_replace_default _ site_app_default [] _ eq_refl
              site_app_default_builds)
    as (d & o & Hd & Ho & _ & Hb & _).
  exists (graph_of site_app_default), d, o.
  split; [apply site_app_default_builds|]. by repeat split.
Defined.

(** C5: in every graph the constructor builds, the origin list of the
    distribution has the default origin (the content bucket read through the
    access identity, both declared in the same graph) at position 0; it is
    that origin followed by the supplied custom origins, in order, when
    [customOriginConfigs] is given, and that origin alone when it is
    absent. *)
Theorem origin_list_composition (sdk : string → Node → bool)
    (props : StaticHostingProps) (g : Graph) :
  synth sdk props = inr g →
  ∃ d o,
    children g !! "BucketCdn" = Some (NDistribution d) ∧
    cloudfront.originConfigs d !! 0 = Some o ∧
    cloudfront.s3OriginSource o =
      Some {| cloudfront.s3BucketSource := "ContentBucket";
              cloudfront.originAccessIdentity := Some "OriginAccessIdentity" |} ∧
    cloudfront.customOriginSource o = None ∧
    (∃ b, children g !! "ContentBucket" = Some (NBucket b)) ∧
    (∃ c, children g !! "OriginAccessIdentity" = Some (NOriginAccessIdentity c)) ∧
    (∀ custom, customOriginConfigs props = Some custom →
       cloudfront.originConfigs d = o :: custom) ∧
    (customOriginConfigs props = None → cloudfront.originConfigs d = [o]).
Proof.
  intros Hs. apply synth_inr in Hs as ->. eexists. eexists.
  split; [apply lookup_BucketCdn|].
  cbn [distributionProps cloudfront.originConfigs].
  destruct (default_origin_first props) as (custom & -> & ->).
  split; [reflexivity|]. split; [reflexivity|]. split; [reflexivity|].
  split; [rewrite lookup_ContentBucket; eauto|].
  split; [rewrite lookup_OriginAccessIdentity; eauto|].
  split.
  - by intros custom ->.
  - by intros ->.
Qed.

Lemma origin_list_composition_witness :
  ∃ g d o,
    synth (cdk_checks true) site_full = inr g ∧
    children g !! "BucketCdn" = Some (NDistribution d) ∧
    cloudfront.originConfigs d = [o; api_origin] ∧
    cloudfront.s3OriginSource o =
      Some {| cloudfront.s3BucketSource := "ContentBucket";
              cloudfront.originAccessIdentity := Some "OriginAccessIdentity" |}.
Proof.
  destruct (origin_list_composition _ _ _ site_full_builds)
    as (d & o & Hd & _ & Ho & _ & _ & _ & Hcustom & _).
  exists (graph_of site_full), d, o. split; [apply site_full_builds|].
  split; [exact Hd|]. split; [by apply Hcustom|exact Ho].
Defined.

(** ** Publisher identities and permissions *)

(** A node of a given kind can only sit under the id the constructor uses
    for that kind. *)
Ltac pin_id props Hl :=
  let Hid := fresh "Hid" in
  pose proof (node_ids props _ _ Hl) as Hid;
  cbn [declared_under] in Hid;
  apply bool_decide_eq_true in Hid;
  subst.

(** C1: in every graph built with [createPublisherGroup] set, there is
    exactly one policy, [CloudFrontInvalidationPolicy]; it is attached to the
    publisher group and to no user, carries one statement allowing the three
    invalidation actions, and its single resource names the distribution id
    of [BucketCdn], the only distribution of the graph. *)
Theorem invalidation_policy_scoped (sdk : string → Node → bool)
    (props : StaticHostingProps) (g : Graph) :
  createPublisherGroup props = Some true →
  synth sdk props = inr g →
  (∀ id p, children g !! id = Some (NPolicy p) ↔
     id = "CloudFrontInvalidationPolicy" ∧
     p = {| iam.users := None;
            iam.groups := Some ["PublisherGroup"];
            iam.statements :=
              [ {| iam.effect := iam.ALLOW;
                   iam.actions := ["cloudfront:CreateInvalidation";
                                   "cloudfront:GetInvalidation";
                                   "cloudfront:ListInvalidations"];
                   iam.resources :=
                     [ [Lit "arn:aws:cloudfront::*:distribution/";
                        Attr "BucketCdn" "distributionId"] ] |} ] |}) ∧
  (∃ members, children g !! "PublisherGroup" = Some (NGroup members)) ∧
  (∀ id, (∃ d, children g !! id = Some (NDistribution d)) ↔ id = "BucketCdn").
Proof.
  intros Hgroup Hs. apply synth_inr in Hs as ->.
  pose proof (lookup_CloudFrontInvalidationPolicy props) as Hpol.
  pose proof (lookup_PublisherGroup props) as Hgrp.
  rewrite Hgroup in Hpol, Hgrp. cbn [truthy_bool] in Hpol, Hgrp.
  split; [|split].
  - intros id p. split.
    + intros Hl. pin_id props Hl. rewrite Hpol in Hl. by injection Hl as [= <-].
    + by intros [-> ->].
  - eauto.
  - intros id. split.
    + intros [d Hl]. by pin_id props Hl.
    + intros ->. rewrite lookup_BucketCdn. eauto.
Qed.

Lemma invalidation_policy_scoped_witness :
  createPublisherGroup site_full = Some true ∧
  ∃ g p,
    synth (cdk_checks true) site_full = inr g ∧
    children g !! "CloudFrontInvalidationPolicy" = Some (NPolicy p) ∧
    iam.groups p = Some ["PublisherGroup"] ∧
    iam.users p = None.
Proof.
  split; [reflexivity|].
  destruct (invalidation_policy_scoped _ site_full _ eq_refl site_full_builds)
    as (Hpol & _).
  eexists (graph_of site_full), _. split; [apply site_full_builds|].
  split; [apply Hpol; split; reflexivity|]. split; reflexivity.
Defined.

(** C6: in every graph built with [createPublisherGroup] set, the group's
    member list is exactly the created publisher user when
    [createPublisherUser] is set too, and is empty otherwise; either way the
    group is granted read/write on the content bucket, and the policy
    attached to it is the invalidation policy: one statement allowing the
    three invalidation actions on the distribution of the graph. *)
Theorem publisher_group_membership (sdk : string → Node → bool)
    (props : StaticHostingProps) (g : Graph) :
  createPublisherGroup props = Some true →
  synth sdk props = inr g →
  ∃ members,
    children g !! "PublisherGroup" = Some (NGroup members) ∧
    (∀ id ms, children g !! id = Some (NGroup ms) → id = "PublisherGroup") ∧
    (createPublisherUser props = Some true →
       members = ["PublisherUser"] ∧
       ∀ id name, children g !! id = Some (NUser name) ↔
         id = "PublisherUser" ∧
         name = "publisher-" +:+ subDomainName props +:+ "." +:+ domainName props) ∧
    (createPublisherUser props ≠ Some true → members = []) ∧
    {| s3.grant_bucket := "ContentBucket"; s3.grant_access := s3.ReadWrite;
       s3.grantee := "PublisherGroup" |} ∈ grants g ∧
    (∃ b, children g !! "ContentBucket" = Some (NBucket b)) ∧
    children g !! "CloudFrontInvalidationPolicy" =
      Some (NPolicy
              {| iam.users := None;
                 iam.groups := Some ["PublisherGroup"];
                 iam.statements :=
                   [ {| iam.effect := iam.ALLOW;
                        iam.actions := ["cloudfront:CreateInvalidation";
                                        "cloudfront:GetInvalidation";
                                        "cloudfront:ListInvalidations"];
                        iam.resources :=
                          [ [Lit "arn:aws:cloudfront::*:distribution/";
                             Attr "BucketCdn" "distributionId"] ] |} ] |}) ∧
    (∃ d, children g !! "BucketCdn" = Some (NDistribution d)).
Proof.
  intros Hgroup Hs. apply synth_inr in Hs as ->. eexists.
  rewrite lookup_PublisherGroup, lookup_CloudFrontInvalidationPolicy, grants_graph_of.
  rewrite Hgroup. cbn [truthy_bool].
  split; [reflexivity|].
  split; [|split; [|split; [|split; [|split; [|split]]]]].
  - intros id ms Hl. by pin_id props Hl.
  - intros Huser. rewrite Huser. split; [reflexivity|].
    pose proof (lookup_PublisherUser props) as Hu.
    rewrite Huser in Hu. cbn [truthy_bool] in Hu.
    intros id name. split.
    + intros Hl. pin_id props Hl. rewrite Hu in Hl. by injection Hl as [= <-].
    + by intros [-> ->].
  - intros Huser. apply truthy_bool_false in Huser. by rewrite Huser.
  - apply list_elem_of_further, list_elem_of_here.
  - rewrite lookup_ContentBucket. eauto.
  - reflexivity.
  - rewrite lookup_BucketCdn. eauto.
Qed.

Lemma publisher_group_membership_witness :
  (createPublisherGroup site_full = Some true ∧
   ∃ g, synth (cdk_checks true) site_full = inr g ∧
        children g !! "PublisherGroup" = Some (NGroup ["PublisherUser"])) ∧
  (createPublisherGroup site_group_only = Some true ∧
   ∃ g, synth (cdk_checks true) site_group_only = inr g ∧
        children g !! "PublisherGroup" = Some (NGroup [])).
Proof.
  split; (split; [reflexivity|]).
  - destruct (publisher_group_membership _ site_full _ eq_refl site_full_builds)
      as (ms & Hgrp & _ & Hboth & _).
    destruct (Hboth eq_refl) as [-> _].
    exists (graph_of site_full). split; [apply site_full_builds|exact Hgrp].
  - destruct (publisher_group_membership _ site_group_only _ eq_refl
                site_group_only_builds)
      as (ms & Hgrp & _ & _ & Honly & _).
    rewrite Honly in Hgrp by discriminate.
    exists (graph_of site_group_only).
    split; [apply site_group_only_builds|exact Hgrp].
Defined.

(** Goes through the members of a concrete output list, closing each case
    with [tac]. *)
Ltac each_output Hin tac :=
  repeat (apply elem_of_cons in Hin as [Hin|Hin]; [injection Hin as -> ->; tac|]);
  by apply elem_of_nil in Hin.

Ltac not_a_user_output :=
  split; [discriminate|];
  let Hu := fresh "Hu" in
  intros ? Hu; apply list_elem_of_singleton in Hu; discriminate.

(** C9: in every graph built without [createPublisherUser] (false or absent)
    no node is a user, there is no [PublisherUserName] output, and no output
    carries the publisher-user description or reads a user name. *)
Theorem no_publisher_user (sdk : string → Node → bool)
    (props : StaticHostingProps) (g : Graph) :
  createPublisherUser props ≠ Some true →
  synth sdk props = inr g →
  (∀ id n, children g !! id = Some n → ∀ name, n ≠ NUser name) ∧
  children g !! "PublisherUser" = None ∧
  children g !! "PublisherUserName" = None ∧
  (∀ id o, children g !! id = Some (NCfnOutput o) →
     core.description o ≠ "PublisherUser" ∧
     ∀ u, Attr u "userName" ∉ core.value o).
Proof.
  intros Huser Hs. apply synth_inr in Hs as ->.
  apply truthy_bool_false in Huser.
  pose proof (lookup_PublisherUser props) as Hu.
  pose proof (lookup_PublisherUserName props) as Hun.
  rewrite Huser in Hu, Hun.
  split; [|split; [exact Hu|split; [exact Hun|]]].
  - intros id n Hl name ->. pin_id props Hl. congruence.
  - intros id o Hin. apply output_cases in Hin. rewrite Huser in Hin.
    destruct (truthy_bool (createPublisherGroup props)),
      (truthy_bool (enableCloudFrontAccessLogging props));
      cbn [stack_outputs app] in Hin; each_output Hin not_a_user_output.
Qed.

Lemma no_publisher_user_witness :
  createPublisherUser site_group_only ≠ Some true ∧
  ∃ g, synth (cdk_checks true) site_group_only = inr g ∧
       children g !! "PublisherUser" = None ∧
       children g !! "PublisherUserName" = None.
Proof.
  split; [discriminate|].
  destruct (no_publisher_user _ site_group_only _ ltac:(discriminate)
              site_group_only_builds)
    as (_ & Hu & Hun & _).
  exists (graph_of site_group_only).
  split; [apply site_group_only_builds|]. by split.
Defined.

(** ** Access logging *)

Ltac not_a_logging_output :=
  split; [discriminate|];
  let Hb := fresh "Hb" in
  intros Hb; apply list_elem_of_singleton in Hb; discriminate.

(** C8: in every graph built without [enableCloudFrontAccessLogging] (false
    or absent) the content bucket is the only bucket, there is no
    [LoggingBucketName] output nor any output reading the logging bucket, and
    the distribution has no logging configuration; in every graph built with
    the flag set, [LoggingBucket] is declared with the canonical hostname
    followed by "-access-logs" as its name and the retain removal policy, and
    it is the distribution's logging bucket. *)
Theorem access_logging_gate (sdk : string → Node → bool)
    (props : StaticHostingProps) (g : Graph) :
  let hostname := subDomainName props +:+ "." +:+ domainName props in
  synth sdk props = inr g →
  ∃ d,
    children g !! "BucketCdn" = Some (NDistribution d) ∧
    (enableCloudFrontAccessLogging props ≠ Some true →
       (∀ id b, children g !! id = Some (NBucket b) → id = "ContentBucket") ∧
       children g !! "LoggingBucket" = None ∧
       children g !! "LoggingBucketName" = None ∧
       (∀ id o, children g !! id = Some (NCfnOutput o) →
          core.description o ≠ "CloudFront Logs" ∧
          Attr "LoggingBucket" "bucketName" ∉ core.value o) ∧
       cloudfront.loggingConfig d = None) ∧
    (enableCloudFrontAccessLogging props = Some true →
       children g !! "LoggingBucket" =
         Some (NBucket {| s3.bucketName := hostname +:+ "-access-logs";
                          s3.encryption := s3.S3_MANAGED;
                          s3.blockPublicAccess := s3.BLOCK_ALL;
                          s3.removalPolicy := Some core.RETAIN |}) ∧
       children g !! "LoggingBucketName" =
         Some (NCfnOutput {| core.description := "CloudFront Logs";
                             core.value := [Attr "LoggingBucket" "bucketName"] |}) ∧
       cloudfront.loggingConfig d = Some {| cloudfront.bucket := "LoggingBucket" |}).
Proof.
  intros hostname Hs. apply synth_inr in Hs as ->. eexists.
  split; [apply lookup_BucketCdn|].
  cbn [distributionProps cloudfront.loggingConfig].
  pose proof (lookup_LoggingBucket props) as Hb.
  pose proof (lookup_LoggingBucketName props) as Hbn.
  split.
  - intros Hlog. apply truthy_bool_false in Hlog. rewrite Hlog in Hb, Hbn |- *.
    split; [|split; [exact Hb|split; [exact Hbn|split; [|reflexivity]]]].
    + intros id b Hl.
      pose proof (node_ids props _ _ Hl) as Hid. cbn [declared_under] in Hid.
      apply orb_true_iff in Hid as [Hid|Hid]; apply bool_decide_eq_true in Hid;
        [exact Hid|]. subst id. congruence.
    + intros id o Hin. apply output_cases in Hin. rewrite Hlog in Hin.
      destruct (truthy_bool (createPublisherUser props)),
        (truthy_bool (createPublisherGroup props));
        cbn [stack_outputs app] in Hin; each_output Hin not_a_logging_output.
  - intros Hlog. rewrite Hlog in Hb, Hbn |- *. cbn [truthy_bool] in Hb, Hbn |- *.
    split; [exact Hb|]. split; [exact Hbn|]. reflexivity.
Qed.

Lemma access_logging_gate_witness :
  (∃ g d, synth (cdk_checks true) site_minimal = inr g ∧
          children g !! "BucketCdn" = Some (NDistribution d) ∧
          children g !! "LoggingBucket" = None ∧
          cloudfront.loggingConfig d = None) ∧
  (∃ g d b, synth (cdk_checks true) site_full = inr g ∧
            children g !! "BucketCdn" = Some (NDistribution d) ∧
            children g !! "LoggingBucket" = Some (NBucket b) ∧
            s3.bucketName b = "www.example.com-access-logs" ∧
            s3.removalPolicy b = Some core.RETAIN ∧
            cloudfront.loggingConfig d = Some {| cloudfront.bucket := "LoggingBucket" |}).
Proof.
  split.
  - destruct (access_logging_gate _ _ _ site_minimal_builds) as (d & Hd & Hoff & _).
    destruct (Hoff ltac:(discriminate)) as (_ & Hb & _ & _ & Hc).
    exists (graph_of site_minimal), d.
    split; [apply site_minimal_builds|]. by repeat split.
  - destruct (access_logging_gate _ _ _ site_full_builds) as (d & Hd & _ & Hon).
    destruct (Hon eq_refl) as (Hb & _ & Hc).
    eexists (graph_of site_full), d, _.
    split; [apply site_full_builds|]. by repeat split.
Defined.

(** ** DNS alias record *)





(** ** The sample configurations, evaluated *)

Example site_minimal_ids :
  dom (children (graph_of site_minimal)) =
  list_to_set ["ContentBucket"; "Bucket"; "OriginAccessIdentity"; "BucketCdn";
               "DistributionId"; "DistributionDomainName"].
Proof. compute_done. Qed.

Example site_minimal_aliases :
  cloudfront.names (cloudfront.aliasConfiguration
    (distributionProps site_minimal "ContentBucket" "OriginAccessIdentity" None)) =
  ["www.example.com"].
Proof. reflexivity. Qed.

Example site_full_ids :
  dom (children (graph_of site_full)) =
  list_to_set ["ContentBucket"; "Bucket"; "OriginAccessIdentity";
               "PublisherUser"; "PublisherUserName";
               "PublisherGroup"; "PublisherGroupName";
               "LoggingBucket"; "LoggingBucketName";
               "BucketCdn"; "CloudFrontInvalidationPolicy";
               "DistributionId"; "DistributionDomainName";
               "Zone"; "SiteAliasRecord"].
Proof. compute_done. Qed.

Example site_full_aliases :
  cloudfront.names (cloudfront.aliasConfiguration
    (distributionProps site_full "ContentBucket" "OriginAccessIdentity" None)) =
  ["www.example.com"; "alt.example.com"].
Proof. reflexivity. Qed.

Example site_full_grants :
  grants (graph_of site_full) =
  [ {| s3.grant_bucket := "ContentBucket"; s3.grant_access := s3.Read;
       s3.grantee := "OriginAccessIdentity" |};
    {| s3.grant_bucket := "ContentBucket"; s3.grant_access := s3.ReadWrite;
       s3.grantee := "PublisherGroup" |};
    {| s3.grant_bucket := "LoggingBucket"; s3.grant_access := s3.Write;
       s3.grantee := "OriginAccessIdentity" |} ].
Proof. vm_compute. reflexivity. Qed.

(** Builds the SDK refuses, each at the declaration that throws. *)
Example site_no_subdomain_refused :
  synth (cdk_checks true) site_no_subdomain = inl (Rejected "ContentBucket").
Proof. vm_compute. reflexivity. Qed.

Example site_no_default_behavior_refused :
  synth (cdk_checks true) site_no_default_behavior = inl (Rejected "BucketCdn").
Proof. vm_compute. reflexivity. Qed.

Example site_long_hostname_refused :
  String.length (siteName site_long_hostname) = 52 ∧
  synth (cdk_checks true) site_long_hostname = inl (Rejected "LoggingBucket").
Proof. split; vm_compute; reflexivity. Qed.

Example site_full_without_env_refused :
  synth (cdk_checks false) site_full = inl (Rejected "Zone").
Proof. vm_compute. reflexivity. Qed.

(** Running the constructor body a second time against the same scope is
    rejected at the first id it declares. *)
Example second_instance_rejected :
  (StaticHosting accept_all site_minimal ;; StaticHosting accept_all site_minimal)
    empty_graph =
  inl (DuplicateId "ContentBucket").
Proof. vm_compute. reflexivity. Qed.

(** ** Further properties of the constructor *)

Lemma dom_graph_of (props : StaticHostingProps) :
  dom (children (graph_of props)) =
  list_to_set (declared_ids
    (truthy_bool (createPublisherUser props))
    (truthy_bool (createPublisherGroup props))
    (truthy_bool (enableCloudFrontAccessLogging props))
    (truthy_bool (createDnsRecord props) && truthy_string (zoneName props))).
Proof.
  flag_cases props; compute_done.
Qed.

(** X1: the construct ids of every graph the constructor builds are exactly
    the ones of [declared_ids]: six unconditional nodes, two more for the
    publisher user, three for the publisher group, two for access logging and
    two for the alias record; nothing else is ever declared. *)
Theorem declared_ids_exact (sdk : string → Node → bool)
    (props : StaticHostingProps) (g : Graph) :
  let user := truthy_bool (createPublisherUser props) in
  let group := truthy_bool (createPublisherGroup props) in
  let logging := truthy_bool (enableCloudFrontAccessLogging props) in
  let dns := truthy_bool (createDnsRecord props) && truthy_string (zoneName props) in
  synth sdk props = inr g →
  (∀ id, is_Some (children g !! id) ↔ id ∈ declared_ids user group logging dns) ∧
  size (children g) =
    6 + (if user then 2 else 0) + (if group then 3 else 0)
      + (if logging then 2 else 0) + (if dns then 2 else 0).
Proof.
  intros user group logging dns Hs. apply synth_inr in Hs as ->. split.
  - intros id. rewrite <- elem_of_dom, dom_graph_of. apply elem_of_list_to_set.
  - rewrite <- size_dom, dom_graph_of. subst user group logging dns.
    destruct (truthy_bool (createPublisherUser props)),
      (truthy_bool (createPublisherGroup props)),
      (truthy_bool (enableCloudFrontAccessLogging props)),
      (truthy_bool (createDnsRecord props) && truthy_string (zoneName props));
      vm_compute; reflexivity.
Qed.

Lemma declared_ids_exact_witness :
  ∃ g, synth (cdk_checks true) site_full = inr g ∧ size (children g) = 15.
Proof.
  destruct (declared_ids_exact _ _ _ site_full_builds) as [_ Hsize].
  exists (graph_of site_full). split; [apply site_full_builds|exact Hsize].
Defined.

(** *** Buckets *)

(** X2: every bucket of a graph the constructor builds is encrypted with
    S3-managed keys and blocks all public access; the retain removal policy
    is set on the logging bucket and on no other. *)
Theorem buckets_private_encrypted (sdk : string → Node → bool)
    (props : StaticHostingProps) (g : Graph) :
  synth sdk props = inr g →
  ∀ id b, children g !! id = Some (NBucket b) →
    s3.encryption b = s3.S3_MANAGED ∧
    s3.blockPublicAccess b = s3.BLOCK_ALL ∧
    (s3.removalPolicy b = Some core.RETAIN ↔ id = "LoggingBucket").
Proof.
  intros Hs. apply synth_inr in Hs as ->. intros id b Hl.
  pose proof (node_ids props _ _ Hl) as Hid. cbn [declared_under] in Hid.
  apply orb_true_iff in Hid as [Hid|Hid]; apply bool_decide_eq_true in Hid;
    subst id; revert Hl.
  - rewrite lookup_ContentBucket. intros [= <-]. by repeat split.
  - rewrite lookup_LoggingBucket.
    destruct (truthy_bool (enableCloudFrontAccessLogging props)); [|discriminate].
    intros [= <-]. by repeat split.
Qed.

Lemma buckets_private_encrypted_witness :
  ∃ g b,
    synth (cdk_checks true) site_full = inr g ∧
    children g !! "LoggingBucket" = Some (NBucket b) ∧
    s3.encryption b = s3.S3_MANAGED ∧
    s3.blockPublicAccess b = s3.BLOCK_ALL.
Proof.
  pose proof (lookup_LoggingBucket site_full) as Hb. cbn [truthy_bool
    enableCloudFrontAccessLogging site_full] in Hb.
  destruct (buckets_private_encrypted _ _ _ site_full_builds _ _ Hb) as (He & Hp & _).
  eexists (graph_of site_full), _. split; [apply site_full_builds|].
  split; [exact Hb|]. by split.
Defined.

Lemma string_length_app (s t : string) :
  String.length (s +:+ t) = String.length s + String.length t.
Proof. induction s as [|a s IH]; simpl; [reflexivity|]. by rewrite IH. Qed.

(** Cancellation of a common suffix. *)
Lemma string_app_inj_r (t s1 s2 : string) : s1 +:+ t = s2 +:+ t → s1 = s2.
Proof.
  revert s2. induction s1 as [|a s1 IH]; intros [|b s2] Heq; simpl in Heq.
  - reflexivity.
  - apply (f_equal String.length) in Heq. simpl in Heq.
    rewrite !string_length_app in Heq. simpl in Heq. lia.
  - apply (f_equal String.length) in Heq. simpl in Heq.
    rewrite !string_length_app in Heq. simpl in Heq. lia.
  - injection Heq as -> Heq. f_equal. by apply IH.
Qed.

(** X3: two buckets of a graph the constructor builds never share a name: the
    logging bucket's name is the content bucket's name with a non-empty
    suffix. *)
Theorem bucket_names_distinct (sdk : string → Node → bool)
    (props : StaticHostingProps) (g : Graph) :
  synth sdk props = inr g →
  ∀ id1 id2 b1 b2,
    children g !! id1 = Some (NBucket b1) →
    children g !! id2 = Some (NBucket b2) →
    s3.bucketName b1 = s3.bucketName b2 →
    id1 = id2.
Proof.
  intros Hs. apply synth_inr in Hs as ->.
  assert (Hne : siteName props +:+ "-access-logs" ≠ siteName props).
  { intros Heq. apply (f_equal String.length) in Heq.
    rewrite string_length_app in Heq. simpl in Heq. lia. }
  intros id1 id2 b1 b2 Hl1 Hl2 Hname.
  pose proof (node_ids props _ _ Hl1) as Hid1.
  pose proof (node_ids props _ _ Hl2) as Hid2.
  cbn [declared_under] in Hid1, Hid2.
  apply orb_true_iff in Hid1 as [Hid1|Hid1]; apply bool_decide_eq_true in Hid1;
    apply orb_true_iff in Hid2 as [Hid2|Hid2]; apply bool_decide_eq_true in Hid2;
    subst id1 id2; try reflexivity; exfalso; revert Hl1 Hl2.
  - rewrite lookup_ContentBucket, lookup_LoggingBucket.
    destruct (truthy_bool (enableCloudFrontAccessLogging props)); [|discriminate].
    intros [= <-] [= <-]. simpl in Hname. congruence.
  - rewrite lookup_ContentBucket, lookup_LoggingBucket.
    destruct (truthy_bool (enableCloudFrontAccessLogging props)); [|discriminate].
    intros [= <-] [= <-]. simpl in Hname. congruence.
Qed.

Lemma bucket_names_distinct_witness :
  ∃ g b1 b2,
    synth (cdk_checks true) site_full = inr g ∧
    children g !! "ContentBucket" = Some (NBucket b1) ∧
    children g !! "LoggingBucket" = Some (NBucket b2) ∧
    s3.bucketName b1 ≠ s3.bucketName b2.
Proof.
  pose proof (lookup_ContentBucket site_full) as H1.
  pose proof (lookup_LoggingBucket site_full) as H2.
  cbn [truthy_bool enableCloudFrontAccessLogging site_full] in H2.
  eexists (graph_of site_full), _, _. split; [apply site_full_builds|].
  split; [exact H1|]. split; [exact H2|]. intros Hname.
  pose proof (bucket_names_distinct _ _ _ site_full_builds _ _ _ _ H1 H2 Hname).
  discriminate.
Defined.

(** X4: the canonical hostname determines the sub-domain once the domain is
    fixed, and the domain once the sub-domain is fixed: two configurations
    with the same hostname agree on one exactly when they agree on the
    other. *)
Theorem siteName_injective (p1 p2 : StaticHostingProps) :
  siteName p1 = siteName p2 →
  (domainName p1 = domainName p2 ↔ subDomainName p1 = subDomainName p2).
Proof.
  unfold siteName. intros Heq. split.
  - intros Hd. rewrite Hd in Heq. by apply string_app_inj_r in Heq.
  - intros Hs. rewrite Hs in Heq. apply (inj (String.app _)) in Heq.
    by injection Heq.
Qed.

Lemma siteName_injective_witness :
  siteName site_minimal = siteName site_full ∧
  (domainName site_minimal = domainName site_full ↔
   subDomainName site_minimal = subDomainName site_full).
Proof.
  split; [reflexivity|]. apply (siteName_injective site_minimal site_full).
  reflexivity.
Defined.

(** *** Grants and identities *)

(** X5: the bucket grants of every graph the constructor builds are exactly:
    read on the content bucket for the access identity; read/write on the
    content bucket for the publisher group when [createPublisherGroup] is
    set; write on the logging bucket for the access identity when
    [enableCloudFrontAccessLogging] is set. *)
Theorem grants_exact (sdk : string → Node → bool)
    (props : StaticHostingProps) (g : Graph) :
  synth sdk props = inr g →
  ∀ gr, gr ∈ grants g ↔
    gr = {| s3.grant_bucket := "ContentBucket"; s3.grant_access := s3.Read;
            s3.grantee := "OriginAccessIdentity" |} ∨
    (createPublisherGroup props = Some true ∧
     gr = {| s3.grant_bucket := "ContentBucket"; s3.grant_access := s3.ReadWrite;
             s3.grantee := "PublisherGroup" |}) ∨
    (enableCloudFrontAccessLogging props = Some true ∧
     gr = {| s3.grant_bucket := "LoggingBucket"; s3.grant_access := s3.Write;
             s3.grantee := "OriginAccessIdentity" |}).
Proof.
  intros Hs. apply synth_inr in Hs as ->. intros gr.
  rewrite grants_graph_of, !elem_of_app, list_elem_of_singleton.
  rewrite <- !truthy_bool_true.
  destruct (truthy_bool (createPublisherGroup props)),
    (truthy_bool (enableCloudFrontAccessLogging props));
    rewrite ?list_elem_of_singleton, ?elem_of_nil; intuition congruence.
Qed.

Lemma grants_exact_witness :
  ∃ g, synth (cdk_checks true) site_minimal = inr g ∧
       ∀ gr, gr ∈ grants g →
         gr = {| s3.grant_bucket := "ContentBucket"; s3.grant_access := s3.Read;
                 s3.grantee := "OriginAccessIdentity" |}.
Proof.
  exists (graph_of site_minimal). split; [apply site_minimal_builds|].
  intros gr Hin.
  apply (grants_exact _ _ _ site_minimal_builds) in Hin as [Hgr|[[Hf _]|[Hf _]]];
    [exact Hgr|discriminate Hf|discriminate Hf].
Defined.

(** X6: in every graph the constructor builds the publisher user holds no
    permission of its own: no bucket grant names a user as grantee, no policy
    lists users, and the only group membership that can exist is that of
    [PublisherUser], present only when [createPublisherUser] is set. *)
Theorem publisher_user_only_via_group (sdk : string → Node → bool)
    (props : StaticHostingProps) (g : Graph) :
  synth sdk props = inr g →
  (∀ gr, gr ∈ grants g → ∀ name, children g !! s3.grantee gr ≠ Some (NUser name)) ∧
  (∀ id p, children g !! id = Some (NPolicy p) → iam.users p = None) ∧
  (∀ id members u, children g !! id = Some (NGroup members) → u ∈ members →
     u = "PublisherUser" ∧ createPublisherUser props = Some true).
Proof.
  intros Hs. apply synth_inr in Hs as ->. split; [|split].
  - intros gr Hin name Hl. pin_id props Hl.
    rewrite grants_graph_of, !elem_of_app in Hin.
    destruct (truthy_bool (createPublisherGroup props)),
      (truthy_bool (enableCloudFrontAccessLogging props));
      rewrite ?list_elem_of_singleton, ?elem_of_nil in Hin;
      intuition subst; discriminate.
  - intros id p Hl. pin_id props Hl. revert Hl.
    rewrite lookup_CloudFrontInvalidationPolicy.
    destruct (truthy_bool (createPublisherGroup props)); [|discriminate].
    by intros [= <-].
  - intros id members u Hl Hu. pin_id props Hl. revert Hl.
    rewrite lookup_PublisherGroup, <- truthy_bool_true.
    destruct (truthy_bool (createPublisherGroup props)); [|discriminate].
    destruct (truthy_bool (createPublisherUser props)); intros [= <-].
    + by apply list_elem_of_singleton in Hu.
    + by apply elem_of_nil in Hu.
Qed.

Lemma publisher_user_only_via_group_witness :
  ∃ g, synth (cdk_checks true) site_full = inr g ∧
       ∀ id p, children g !! id = Some (NPolicy p) → iam.users p = None.
Proof.
  destruct (publisher_user_only_via_group _ _ _ site_full_builds) as (_ & Hpol & _).
  exists (graph_of site_full). split; [apply site_full_builds|exact Hpol].
Defined.

Ltac not_a_group_output :=
  split; [discriminate|];
  let Hu := fresh "Hu" in
  intros ? Hu; apply list_elem_of_singleton in Hu; discriminate.

(** X7: in every graph built without [createPublisherGroup] (false or absent)
    there is no group and no policy, no output carries the publisher-group
    description or reads a group name, and the access identity is the only
    grantee; a publisher user, if one is created, is then left without any
    permission. *)
Theorem no_publisher_group (sdk : string → Node → bool)
    (props : StaticHostingProps) (g : Graph) :
  createPublisherGroup props ≠ Some true →
  synth sdk props = inr g →
  (∀ id n, children g !! id = Some n →
     (∀ members, n ≠ NGroup members) ∧ (∀ p, n ≠ NPolicy p)) ∧
  (∀ id o, children g !! id = Some (NCfnOutput o) →
     core.description o ≠ "PublisherGroup" ∧
     ∀ grp, Attr grp "groupName" ∉ core.value o) ∧
  (∀ gr, gr ∈ grants g → s3.grantee gr = "OriginAccessIdentity").
Proof.
  intros Hgroup Hs. apply synth_inr in Hs as ->.
  apply truthy_bool_false in Hgroup. split; [|split].
  - intros id n Hl. split.
    + intros members ->. pin_id props Hl. revert Hl.
      rewrite lookup_PublisherGroup, Hgroup. discriminate.
    + intros p ->. pin_id props Hl. revert Hl.
      rewrite lookup_CloudFrontInvalidationPolicy, Hgroup. discriminate.
  - intros id o Hin. apply output_cases in Hin. rewrite Hgroup in Hin.
    destruct (truthy_bool (createPublisherUser props)),
      (truthy_bool (enableCloudFrontAccessLogging props));
      cbn [stack_outputs app] in Hin; each_output Hin not_a_group_output.
  - intros gr. rewrite grants_graph_of, Hgroup, !elem_of_app.
    destruct (truthy_bool (enableCloudFrontAccessLogging props));
      rewrite ?list_elem_of_singleton, ?elem_of_nil; intuition subst; reflexivity.
Qed.

Lemma no_publisher_group_witness :
  createPublisherGroup site_minimal ≠ Some true ∧
  ∃ g, synth (cdk_checks true) site_minimal = inr g ∧
       ∀ gr, gr ∈ grants g → s3.grantee gr = "OriginAccessIdentity".
Proof.
  split; [discriminate|].
  destruct (no_publisher_group _ site_minimal _ ltac:(discriminate)
              site_minimal_builds)
    as (_ & _ & Hgr).
  exists (graph_of site_minimal). split; [apply site_minimal_builds|exact Hgr].
Defined.

(** *** Outputs and references *)

(** X8: the outputs of every graph the constructor builds are exactly those
    of [stack_outputs]: the bucket name, the distribution id and the
    distribution domain name always, and the user name, group name and
    logging bucket name each exactly when its feature is enabled. *)
Theorem outputs_exact (sdk : string → Node → bool)
    (props : StaticHostingProps) (g : Graph) :
  synth sdk props = inr g →
  ∀ id o, children g !! id = Some (NCfnOutput o) ↔
    (id, o) ∈ stack_outputs (truthy_bool (createPublisherUser props))
                (truthy_bool (createPublisherGroup props))
                (truthy_bool (enableCloudFrontAccessLogging props)).
Proof.
  intros Hs. apply synth_inr in Hs as ->. intros id o.
  split; [apply output_cases|]. intros Hin.
  pose proof (lookup_Bucket props).
  pose proof (lookup_PublisherUserName props).
  pose proof (lookup_PublisherGroupName props).
  pose proof (lookup_LoggingBucketName props).
  pose proof (lookup_DistributionId props).
  pose proof (lookup_DistributionDomainName props).
  destruct (truthy_bool (createPublisherUser props)),
    (truthy_bool (createPublisherGroup props)),
    (truthy_bool (enableCloudFrontAccessLogging props));
    cbn [stack_outputs app] in Hin; each_output Hin assumption.
Qed.

Lemma outputs_exact_witness :
  ∃ g, synth (cdk_checks true) site_minimal = inr g ∧
       children g !! "DistributionId" =
         Some (NCfnOutput {| core.description := "DistributionId";
                             core.value := [Attr "BucketCdn" "distributionId"] |}).
Proof.
  exists (graph_of site_minimal). split; [apply site_minimal_builds|].
  apply (outputs_exact _ _ _ site_minimal_builds).
  cbn [stack_outputs truthy_bool createPublisherUser createPublisherGroup
       enableCloudFrontAccessLogging site_minimal app].
  apply list_elem_of_further, list_elem_of_here.
Defined.

(** X9: no reference of a graph the constructor builds dangles.  Every output
    reads an attribute of a declared node; every group member is a declared
    user; every group a policy is attached to is a declared group; every
    grant joins a declared bucket to a declared access identity or group; the
    distribution's logging bucket is a declared bucket; an alias record
    targets a declared distribution in a declared hosted zone. *)
Theorem references_resolve (sdk : string → Node → bool)
    (props : StaticHostingProps) (g : Graph) :
  synth sdk props = inr g →
  (∀ id o i a, children g !! id = Some (NCfnOutput o) →
     Attr i a ∈ core.value o → is_Some (children g !! i)) ∧
  (∀ id members u, children g !! id = Some (NGroup members) → u ∈ members →
     ∃ name, children g !! u = Some (NUser name)) ∧
  (∀ id p gs grp, children g !! id = Some (NPolicy p) →
     iam.groups p = Some gs → grp ∈ gs →
     ∃ members, children g !! grp = Some (NGroup members)) ∧
  (∀ gr, gr ∈ grants g →
     (∃ b, children g !! s3.grant_bucket gr = Some (NBucket b)) ∧
     ((∃ c, children g !! s3.grantee gr = Some (NOriginAccessIdentity c)) ∨
      (∃ members, children g !! s3.grantee gr = Some (NGroup members)))) ∧
  (∀ id d lc, children g !! id = Some (NDistribution d) →
     cloudfront.loggingConfig d = Some lc →
     ∃ b, children g !! cloudfront.bucket lc = Some (NBucket b)) ∧
  (∀ id r, children g !! id = Some (NARecord r) →
     (∃ d, route53.target r = route53.CloudFrontTarget d ∧
           ∃ dp, children g !! d = Some (NDistribution dp)) ∧
     (∃ z, children g !! route53.zone r = Some (NHostedZone z))).
Proof.
  intros Hs. apply synth_inr in Hs as ->.
  pose proof (lookup_ContentBucket props) as HCB.
  pose proof (lookup_OriginAccessIdentity props) as HOAI.
  pose proof (lookup_PublisherUser props) as HPU.
  pose proof (lookup_PublisherGroup props) as HPG.
  pose proof (lookup_LoggingBucket props) as HLB.
  pose proof (lookup_BucketCdn props) as HCDN.
  pose proof (lookup_Zone props) as HZ.
  split; [|split; [|split; [|split; [|split]]]].
  - intros id o i a Hin Hv. apply output_cases in Hin.
    destruct (truthy_bool (createPublisherUser props)),
      (truthy_bool (createPublisherGroup props)),
      (truthy_bool (enableCloudFrontAccessLogging props));
      cbn [stack_outputs app] in Hin;
      each_output Hin ltac:(apply list_elem_of_singleton in Hv;
                            injection Hv as -> ->; eexists; eassumption).
  - intros id members u Hl Hu. pin_id props Hl. rewrite HPG in Hl.
    destruct (truthy_bool (createPublisherGroup props)); [|discriminate].
    destruct (truthy_bool (createPublisherUser props)); injection Hl as [= <-].
    + apply list_elem_of_singleton in Hu as ->. eauto.
    + by apply elem_of_nil in Hu.
  - intros id p gs grp Hl Hgs Hgrp. pin_id props Hl. revert Hl.
    rewrite lookup_CloudFrontInvalidationPolicy.
    destruct (truthy_bool (createPublisherGroup props)); [|discriminate].
    intros [= <-]. injection Hgs as [= <-].
    apply list_elem_of_singleton in Hgrp as ->. eauto.
  - intros gr. rewrite grants_graph_of, !elem_of_app.
    destruct (truthy_bool (createPublisherGroup props)),
      (truthy_bool (enableCloudFrontAccessLogging props));
      rewrite ?list_elem_of_singleton, ?elem_of_nil;
      intuition subst; eauto.
  - intros id d lc Hl Hlc. pin_id props Hl. rewrite HCDN in Hl.
    injection Hl as [= <-]. cbn [distributionProps cloudfront.loggingConfig] in Hlc.
    destruct (truthy_bool (enableCloudFrontAccessLogging props)); [|discriminate].
    injection Hlc as [= <-]. eauto.
  - intros id r Hl. pin_id props Hl. revert Hl.
    rewrite lookup_SiteAliasRecord.
    destruct (truthy_bool (createDnsRecord props) && truthy_string (zoneName props));
      [|discriminate].
    intros [= <-]. eauto 6.
Qed.

Lemma references_resolve_witness :
  ∃ g, synth (cdk_checks true) site_full = inr g ∧
       ∀ id members u, children g !! id = Some (NGroup members) → u ∈ members →
         ∃ name, children g !! u = Some (NUser name).
Proof.
  destruct (references_resolve _ _ _ site_full_builds) as (_ & Hmem & _).
  exists (graph_of site_full). split; [apply site_full_builds|exact Hmem].
Defined.

(** *** Hosted zone and distribution *)

(** X10: a hosted zone is looked up only for the alias record: a graph the
    constructor builds holds a hosted-zone node exactly when
    [createDnsRecord] is set and [zoneName] is a non-empty string, and the
    lookup is then made under the id [Zone] for that very zone name. *)
Theorem hosted_zone_lookup (sdk : string → Node → bool)
    (props : StaticHostingProps) (g : Graph) :
  synth sdk props = inr g →
  ∀ id z, children g !! id = Some (NHostedZone z) ↔
    id = "Zone" ∧
    createDnsRecord props = Some true ∧
    zoneName props = Some (route53.domainName z) ∧
    route53.domainName z ≠ "".
Proof.
  intros Hs. apply synth_inr in Hs as ->. intros id z.
  pose proof (lookup_Zone props) as HZ. split.
  - intros Hl. pin_id props Hl. rewrite HZ in Hl.
    destruct (truthy_bool (createDnsRecord props)) eqn:Hflag; [|discriminate].
    destruct (truthy_string (zoneName props)) eqn:Hzone; [|discriminate].
    apply truthy_bool_true in Hflag.
    apply truthy_string_true in Hzone as (z0 & Hz0 & Hne).
    rewrite Hz0 in Hl. injection Hl as [= <-]. by rewrite Hz0.
  - intros (-> & Hflag & Hz & Hne). rewrite HZ.
    apply truthy_bool_true in Hflag. rewrite Hflag.
    assert (truthy_string (zoneName props) = true) as ->.
    { apply truthy_string_true. eauto. }
    rewrite Hz. by destruct z.
Qed.

Lemma hosted_zone_lookup_witness :
  ∃ g, synth (cdk_checks true) site_full = inr g ∧
       children g !! "Zone" =
         Some (NHostedZone {| route53.domainName := "example.com" |}).
Proof.
  exists (graph_of site_full). split; [apply site_full_builds|].
  apply (hosted_zone_lookup _ _ _ site_full_builds).
  repeat split. discriminate.
Defined.

(** X11: in every graph the constructor builds, the distribution binds the
    caller's certificate by SNI with the TLS 1.2 (2018) policy, redirects
    viewers to HTTPS, uses every edge location, and answers a 404 from the
    origin with [/index.html] and status 200, uncached. *)
Theorem distribution_settings (sdk : string → Node → bool)
    (props : StaticHostingProps) (g : Graph) :
  synth sdk props = inr g →
  ∃ d,
    children g !! "BucketCdn" = Some (NDistribution d) ∧
    cloudfront.acmCertRef (cloudfront.aliasConfiguration d) = certificateArn props ∧
    cloudfront.securityPolicy (cloudfront.aliasConfiguration d) = cloudfront.TLS_V1_2_2018 ∧
    cloudfront.sslMethod (cloudfront.aliasConfiguration d) = cloudfront.SNI ∧
    cloudfront.viewerProtocolPolicy d = cloudfront.REDIRECT_TO_HTTPS ∧
    cloudfront.priceClass d = cloudfront.PRICE_CLASS_ALL ∧
    cloudfront.errorConfigurations d =
      [ {| cloudfront.errorCode := 404;
           cloudfront.errorCachingMinTtl := 0;
           cloudfront.responseCode := 200;
           cloudfront.responsePagePath := "/index.html" |} ].
Proof.
  intros Hs. apply synth_inr in Hs as ->. eexists.
  split; [apply lookup_BucketCdn|]. by repeat split.
Qed.

Lemma distribution_settings_witness :
  ∃ g d,
    synth (cdk_checks true) site_minimal = inr g ∧
    children g !! "BucketCdn" = Some (NDistribution d) ∧
    cloudfront.viewerProtocolPolicy d = cloudfront.REDIRECT_TO_HTTPS.
Proof.
  destruct (distribution_settings _ _ _ site_minimal_builds)
    as (d & Hd & _ & _ & _ & Hv & _).
  exists (graph_of site_minimal), d. split; [apply site_minimal_builds|].
  by split.
Defined.

Lemma lookup_undeclared (props : StaticHostingProps) (id : string) :
  id ∉ declared_ids
    (truthy_bool (createPublisherUser props))
    (truthy_bool (createPublisherGroup props))
    (truthy_bool (enableCloudFrontAccessLogging props))
    (truthy_bool (createDnsRecord props) && truthy_string (zoneName props)) →
  children (graph_of props) !! id = None.
Proof.
  intros Hid. apply not_elem_of_dom. rewrite dom_graph_of.
  by rewrite elem_of_list_to_set.
Qed.

(** Rewrites the lookup of a declared id on both sides of the goal. *)
Ltac lookup_declared :=
  first
    [ rewrite !lookup_ContentBucket | rewrite !lookup_Bucket
    | rewrite !lookup_OriginAccessIdentity
    | rewrite !lookup_PublisherUser | rewrite !lookup_PublisherUserName
    | rewrite !lookup_PublisherGroup | rewrite !lookup_PublisherGroupName
    | rewrite !lookup_LoggingBucket | rewrite !lookup_LoggingBucketName
    | rewrite !lookup_CloudFrontInvalidationPolicy
    | rewrite !lookup_DistributionId | rewrite !lookup_DistributionDomainName
    | rewrite !lookup_Zone | rewrite !lookup_SiteAliasRecord ].

(** X12: the certificate, the extra aliases, the custom origins and the
    behaviors reach the distribution and nothing else: when the build
    succeeds both before and after they are replaced, the two graphs have the
    same grants and the same nodes apart from the distribution. *)
Theorem cdn_settings_only_reach_distribution (sdk : string → Node → bool)
    (props : StaticHostingProps)
    (cert : string) (extra : option (list string))
    (custom : option (list cloudfront.SourceConfiguration))
    (bs : option (list cloudfront.Behavior)) (g g' : Graph) :
  synth sdk props = inr g →
  synth sdk (with_cdn_settings props cert extra custom bs) = inr g' →
  (∀ id, id ≠ "BucketCdn" → children g' !! id = children g !! id) ∧
  grants g' = grants g.
Proof.
  intros Hs Hs'. apply synth_inr in Hs as ->. apply synth_inr in Hs' as ->. split.
  - intros id Hne.
    destruct (decide (id ∈ declared_ids
      (truthy_bool (createPublisherUser props))
      (truthy_bool (createPublisherGroup props))
      (truthy_bool (enableCloudFrontAccessLogging props))
      (truthy_bool (createDnsRecord props) && truthy_string (zoneName props))))
      as [Hin|Hout].
    + unfold declared_ids in Hin.
      destruct (truthy_bool (createPublisherUser props)),
        (truthy_bool (createPublisherGroup props)),
        (truthy_bool (enableCloudFrontAccessLogging props)),
        (truthy_bool (createDnsRecord props) && truthy_string (zoneName props));
        cbn [app] in Hin;
        repeat (apply elem_of_cons in Hin as [Hin|Hin];
                [subst id; first [congruence | lookup_declared; reflexivity]|]);
        by apply elem_of_nil in Hin.
    + rewrite (lookup_undeclared props) by exact Hout.
      by apply lookup_undeclared.
  - by rewrite !grants_graph_of.
Qed.

Lemma cdn_settings_only_reach_distribution_witness :
  ∃ g g',
    synth (cdk_checks true) site_minimal = inr g ∧
    synth (cdk_checks true)
      (with_cdn_settings site_minimal "arn:aws:acm:us-east-1:111122223333:certificate/def"
         (Some ["alt.example.com"]) (Some [api_origin]) None) = inr g' ∧
    children g' !! "ContentBucket" = children g !! "ContentBucket" ∧
    grants g' = grants g.
Proof.
  assert (Hs' : synth (cdk_checks true)
      (with_cdn_settings site_minimal "arn:aws:acm:us-east-1:111122223333:certificate/def"
         (Some ["alt.example.com"]) (Some [api_origin]) None) =
      inr (graph_of (with_cdn_settings site_minimal
         "arn:aws:acm:us-east-1:111122223333:certificate/def"
         (Some ["alt.example.com"]) (Some [api_origin]) None))).
  { apply synth_accepted. vm_compute. reflexivity. }
  destruct (cdn_settings_only_reach_distribution _ _ _ _ _ _ _ _
              site_minimal_builds Hs') as [Hnodes Hgrants].
  eexists _, _. split; [apply site_minimal_builds|]. split; [exact Hs'|].
  split; [apply Hnodes; discriminate|exact Hgrants].
Defined.

(** *** Publisher user *)

(** X13: in every graph built with [createPublisherUser] set there is exactly
    one user, [PublisherUser], named "publisher-" followed by the canonical
    hostname, and the [PublisherUserName] output reads its name; this does
    not depend on [createPublisherGroup], and the user belongs to a group
    only when that flag is set as well. *)
Theorem publisher_user_declared (sdk : string → Node → bool)
    (props : StaticHostingProps) (g : Graph) :
  createPublisherUser props = Some true →
  synth sdk props = inr g →
  (∀ id name, children g !! id = Some (NUser name) ↔
     id = "PublisherUser" ∧
     name = "publisher-" +:+ subDomainName props +:+ "." +:+ domainName props) ∧
  children g !! "PublisherUserName" =
    Some (NCfnOutput {| core.description := "PublisherUser";
                        core.value := [Attr "PublisherUser" "userName"] |}) ∧
  ((∃ id members, children g !! id = Some (NGroup members) ∧
                  "PublisherUser" ∈ members)
   ↔ createPublisherGroup props = Some true).
Proof.
  intros Huser Hs. apply synth_inr in Hs as ->.
  pose proof (lookup_PublisherUser props) as HPU.
  pose proof (lookup_PublisherUserName props) as HPUN.
  pose proof (lookup_PublisherGroup props) as HPG.
  rewrite Huser in HPU, HPUN, HPG. cbn [truthy_bool] in HPU, HPUN, HPG.
  split; [|split; [exact HPUN|]].
  - intros id name. split.
    + intros Hl. pin_id props Hl. rewrite HPU in Hl. by injection Hl as [= <-].
    + by intros [-> ->].
  - rewrite <- truthy_bool_true. split.
    + intros (id & members & Hl & _). pin_id props Hl. rewrite HPG in Hl.
      by destruct (truthy_bool (createPublisherGroup props)).
    + intros Hgroup. rewrite Hgroup in HPG.
      exists "PublisherGroup", ["PublisherUser"]. split; [exact HPG|].
      apply list_elem_of_here.
Qed.

Lemma publisher_user_declared_witness :
  createPublisherUser site_full = Some true ∧
  ∃ g, synth (cdk_checks true) site_full = inr g ∧
       children g !! "PublisherUser" = Some (NUser "publisher-www.example.com").
Proof.
  split; [reflexivity|].
  destruct (publisher_user_declared _ site_full _ eq_refl site_full_builds)
    as (Hu & _).
  exists (graph_of site_full). split; [apply site_full_builds|]. by apply Hu.
Defined.

(** *** Failures *)


